(** * Command handlers of the Nagios chat plugin (server/handlers.go)

    A shallow embedding of the command layer: the typed settings kept in
    the plugin host's key-value store, the get-log query builder and the
    two formatters, and the subscribe / unsubscribe handlers with the
    one-shot stop channel of the report task.

    Go strings are byte sequences and are modelled as [string] (a list of
    8-bit [ascii]); [int] and [int64] are [Z] with the 64-bit bounds and
    wrap-around written out; the key-value store is a [gmap]. *)

From Stdlib Require Import ZArith Ascii String List Lia Bool.
From stdpp Require Import gmap strings list.

Local Open Scope string_scope.
Local Open Scope Z_scope.

(** ** Go integers *)

Definition maxUint64 : Z := 2 ^ 64 - 1.
Definition maxInt64 : Z := 2 ^ 63 - 1.
Definition minInt64 : Z := - 2 ^ 63.

(** Conversion to [uint64] and to [int64] (two's complement). *)
Definition wrapU64 (z : Z) : Z := z mod 2 ^ 64.
Definition wrap64 (z : Z) : Z := (z + 2 ^ 63) mod 2 ^ 64 - 2 ^ 63.

Definition inInt64 (z : Z) : Prop := minInt64 <= z <= maxInt64.

(** ** Go errors

    Handlers only test [err != nil] and pass the error to the logger, so
    an error is a tag, plus the [%w] wrapping done by [fmt.Errorf]. *)

Inductive error : Type :=
  | ErrSyntax                         (* strconv.ErrSyntax *)
  | ErrRange                          (* strconv.ErrRange *)
  | ErrJSON                           (* any error of encoding/json *)
  | AppError                          (* model.AppError of the plugin API *)
  | ErrQuery                          (* any error of the Nagios client *)
  | Errorf (prefix : string) (e : error).

Inductive result (A : Type) : Type :=
  | Ok (a : A)
  | Err (e : error).
Arguments Ok {A} a.
Arguments Err {A} e.

(** ** strconv *)

Module strconv.

Definition byteVal (c : ascii) : Z := Z.of_N (N_of_ascii c).

Definition isDigit (c : ascii) : bool :=
  (48 <=? byteVal c) && (byteVal c <=? 57).

Definition digitChar (d : Z) : ascii := ascii_of_N (Z.to_N (48 + d)).

(** The loop of [ParseUint] for base 10 and 64 bits: [n] is the value
    read so far; a byte that is no digit stops with a syntax error, an
    overflow of [n * 10] or of [n * 10 + d] with a range error. *)
Fixpoint parseUintLoop (s : string) (n : Z) : result Z :=
  match s with
  | EmptyString => Ok n
  | String c s' =>
      if negb (isDigit c) then Err ErrSyntax
      else
        let d := byteVal c - 48 in
        let cutoff := maxUint64 / 10 + 1 in
        if cutoff <=? n then Err ErrRange
        else
          let n10 := wrapU64 (n * 10) in
          let n1 := wrapU64 (n10 + d) in
          if (n1 <? n10) || (maxUint64 <? n1) then Err ErrRange
          else parseUintLoop s' n1
  end.

Definition ParseUint (s : string) : result Z :=
  match s with
  | EmptyString => Err ErrSyntax
  | _ => parseUintLoop s 0
  end.

(** [ParseInt(s, 10, 64)]. A range error of [ParseUint] comes with the
    value [maxUint64], which the cutoff tests below turn into a range
    error again. *)
Definition ParseInt (s : string) : result Z :=
  match s with
  | EmptyString => Err ErrSyntax
  | String c s' =>
      let neg := Ascii.eqb c "-" in
      let s1 := if Ascii.eqb c "+" || neg then s' else s in
      match ParseUint s1 with
      | Err ErrRange => Err ErrRange
      | Err e => Err e
      | Ok un =>
          let cutoff := 2 ^ 63 in
          if negb neg && (cutoff <=? un) then Err ErrRange
          else if neg && (cutoff <? un) then Err ErrRange
          else
            let n := wrap64 un in
            Ok (if neg then wrap64 (- n) else n)
      end
  end.

(** [Atoi(s)] is [ParseInt(s, 10, 0)]; [int] has 64 bits. *)
Definition Atoi (s : string) : result Z := ParseInt s.

(** The digit loop of [formatBits] for base 10; a [uint64] has at most
    20 digits, which bounds the loop. *)
Fixpoint formatBits (fuel : nat) (u : Z) (acc : string) : string :=
  match fuel with
  | O => acc
  | S f =>
      if u <? 10 then String (digitChar u) acc
      else formatBits f (u / 10) (String (digitChar (u mod 10)) acc)
  end.

(** [FormatInt(i, 10)]. *)
Definition FormatInt (i : Z) : string :=
  if i <? 0 then String "-" (formatBits 20 (wrapU64 (- i)) "")
  else formatBits 20 i "".

Definition Itoa (i : Z) : string := FormatInt i.

End strconv.

(** ** encoding/json, at type [int]

    [Marshal] of an integer is its decimal text. [Unmarshal] into an
    integer variable accepts, between optional JSON white space, the
    literal [null] (the variable keeps its value) or an integer literal
    without fraction and exponent that fits 64 bits; every other input,
    valid JSON or not, is an error. *)

Module json.

Definition isSpace (c : ascii) : bool :=
  Ascii.eqb c " " || Ascii.eqb c "009" || Ascii.eqb c "010" || Ascii.eqb c "013".

Fixpoint skipSpace (s : string) : string :=
  match s with
  | String c s' => if isSpace c then skipSpace s' else s
  | EmptyString => s
  end.

Fixpoint allSpace (s : string) : bool :=
  match s with
  | String c s' => isSpace c && allSpace s'
  | EmptyString => true
  end.

(** The longest prefix without white space, and what follows it. *)
Fixpoint scanToken (s : string) : string * string :=
  match s with
  | String c s' =>
      if isSpace c then (EmptyString, s)
      else let '(t, r) := scanToken s' in (String c t, r)
  | EmptyString => (EmptyString, EmptyString)
  end.

Fixpoint allDigits (s : string) : bool :=
  match s with
  | String c s' => strconv.isDigit c && allDigits s'
  | EmptyString => true
  end.

(** The JSON grammar of an integer: an optional minus sign, then either
    the single digit 0 or a digit 1-9 followed by any digits. *)
Definition isIntLiteral (t : string) : bool :=
  let u := match t with
           | String c r => if Ascii.eqb c "-" then r else t
           | EmptyString => t
           end in
  match u with
  | EmptyString => false
  | String c r =>
      if Ascii.eqb c "0" then String.eqb r ""
      else strconv.isDigit c && allDigits r
  end.

Definition Marshal_int (i : Z) : result string := Ok (strconv.FormatInt i).

(** [Unmarshal(data, &v)] for [v] an [int] or [int64] holding [v0]. *)
Definition Unmarshal_int (data : string) (v0 : Z) : result Z :=
  let '(tok, rest) := scanToken (skipSpace data) in
  if negb (allSpace rest) then Err ErrJSON
  else if String.eqb tok "null" then Ok v0
  else if isIntLiteral tok then
    match strconv.ParseInt tok with
    | Ok n => Ok n
    | Err _ => Err ErrJSON
    end
  else Err ErrJSON.

End json.

(** ** Strings of the handlers *)

Definition newline : string := String "010" EmptyString.

Definition logErrorKey := "error".

Definition settingLogsLimitUnsuccessful := "Setting logs limit unsuccessful.".
Definition logsLimitKey := "logs-limit".
Definition defaultLogsLimit : Z := 50.

Definition settingLogsStartTimeUnsuccessful := "Setting logs start time unsuccessful.".
Definition logsStartTimeKey := "logs-start-time".
Definition defaultLogsStartTime : Z := 86400.

Definition gettingLogsUnsuccessful := "Getting logs unsuccessful".
Definition resultTypeTextSuccess := "Success".

Definition settingReportFrequencyUnsuccessful := "Setting report frequency unsuccessful.".
Definition reportFrequencyKey := "report-frequency".
Definition defaultReportFrequency : Z := 10.

Definition settingReportChannelUnsuccessful :=
  "Setting system monitoring report channel unsuccessful.".
Definition reportChannelKey := "report-channel".

Definition settingChangesChannelUnsuccessful :=
  "Setting configuration changes channel unsuccessful.".
Definition changesChannelKey := "changes-channel".

Definition unsubscribingUnsuccessful := "Unsubscribing unsuccessful.".

(** ** time

    [time.Unix(sec, 0).String()] prints the instant in the process's
    local time zone with the layout
    [2006-01-02 15:04:05.999999999 -0700 MST]; with zero nanoseconds the
    fraction is not printed. A [Location] gives, for an instant, the
    zone abbreviation and its offset east of UTC in seconds. *)

Module time.

Record Location : Type := { lookup : Z -> string * Z }.

Definition UTC : Location := {| lookup := fun _ => ("UTC", 0) |}.

Definition Second : Z := 1000000000.
Definition Minute : Z := 60 * Second.

(** A [Time] without monotonic reading is an instant, here in
    nanoseconds since the Unix epoch; a [Duration] is an [int64] of
    nanoseconds. *)
Definition Add (t d : Z) : Z := t + d.
Definition Unix (t : Z) : Z := t / Second.

(** [appendInt]: sign, then the magnitude padded with zeros to [width]. *)
Fixpoint pad (n : nat) (s : string) : string :=
  match n with
  | O => s
  | S n' => String "0" (pad n' s)
  end.

Definition appendInt (x : Z) (width : nat) : string :=
  let digits := strconv.formatBits 20 (Z.abs x) "" in
  (if x <? 0 then "-" else "") +:+ pad (width - String.length digits) digits.

(** Year, month and day of the proleptic Gregorian calendar for a
    number of days since 1970-01-01. *)
Definition civil (days : Z) : Z * Z * Z :=
  let z := days + 719468 in
  let era := z / 146097 in
  let doe := z mod 146097 in
  let yoe := (doe - doe / 1460 + doe / 36524 - doe / 146096) / 365 in
  let doy := doe - (365 * yoe + yoe / 4 - yoe / 100) in
  let mp := (5 * doy + 2) / 153 in
  let d := doy - (153 * mp + 2) / 5 + 1 in
  let m := if mp <? 10 then mp + 3 else mp - 9 in
  let y := yoe + era * 400 + (if m <=? 2 then 1 else 0) in
  (y, m, d).

Definition numTZ (offset : Z) : string :=
  let zone := Z.quot offset 60 in
  (if zone <? 0 then "-" else "+")
    +:+ appendInt (Z.abs zone / 60) 2 +:+ appendInt (Z.abs zone mod 60) 2.

(** [time.Unix(sec, 0).In(loc).String()]. *)
Definition UnixString (loc : Location) (sec : Z) : string :=
  let '(name, offset) := lookup loc sec in
  let abs := sec + offset in
  let '(y, m, d) := civil (abs / 86400) in
  let rem := abs mod 86400 in
  appendInt y 4 +:+ "-" +:+ appendInt m 2 +:+ "-" +:+ appendInt d 2
    +:+ " " +:+ appendInt (rem / 3600) 2
    +:+ ":" +:+ appendInt (rem mod 3600 / 60) 2
    +:+ ":" +:+ appendInt (rem mod 60) 2
    +:+ " " +:+ numTZ offset
    +:+ " " +:+ (if String.eqb name "" then numTZ offset else name).

End time.

(** ** Records of the Nagios client (go-nagios), with the fields the
    handlers read or write *)

Module nagios.

Record Result : Type := { TypeText : string }.

Record AlertListEntry : Type := {
  Timestamp : Z;
  ObjectType : string;
  HostName : string;
  Description : string;
  Name : string;
  StateType : string;
  State : string;
  PluginOutput : string }.

Record NotificationListEntry : Type := {
  NTimestamp : Z;
  NObjectType : string;
  NHostName : string;
  NDescription : string;
  NName : string;
  Contact : string;
  NotificationType : string;
  Method : string;
  Message : string }.

Record AlertList : Type := {
  AResult : Result;
  AData : list AlertListEntry }.

Record NotificationList : Type := {
  NResult : Result;
  NData : list NotificationListEntry }.

(** [GeneralAlertRequest] and [GeneralNotificationRequest] take the
    same fields. *)
Record GeneralRequest : Type := {
  Enumerate : bool;
  Count : Z;
  ReqHostName : string;
  ServiceDescription : string;
  StartTime : Z;
  EndTime : Z }.

Inductive Request : Type :=
  | AlertListRequest (q : GeneralRequest)
  | NotificationListRequest (q : GeneralRequest).

(** [Client.Query] fills the value of the request's kind or fails. *)
Record Client : Type := {
  QueryAlerts : GeneralRequest -> result AlertList;
  QueryNotifications : GeneralRequest -> result NotificationList }.

End nagios.

(** ** Formatting *)

Section Formatting.

(** The process's time zone ([time.Local]). *)
Variable Local : time.Location.

(** [emoji], the state indicator of an alert, is defined in another
    file of the plugin. *)
Variable emoji : string -> string.

(** [t / 1e3] on [int64] truncates toward zero. *)
Definition formatNagiosTimestamp (t : Z) : string :=
  time.UnixString Local (Z.quot t 1000).

Definition formatHostName (name alt : string) : string :=
  if (String.length name =? 0)%nat then alt else name.

Definition gettingLogsUnsuccessfulMessage (message : string) : string :=
  gettingLogsUnsuccessful +:+ ": " +:+ message.

Definition unknownParameterMessage (parameter : string) : string :=
  "Unknown parameter (" +:+ parameter +:+ ").".

Definition formatAlertListEntry (e : nagios.AlertListEntry) : string :=
  emoji (nagios.State e)
    +:+ " [" +:+ formatNagiosTimestamp (nagios.Timestamp e)
    +:+ "] " +:+ nagios.ObjectType e
    +:+ ": " +:+ formatHostName (nagios.HostName e) (nagios.Name e)
    +:+ " | " +:+ nagios.Description e
    +:+ " | " +:+ nagios.StateType e
    +:+ " | " +:+ nagios.State e
    +:+ " | " +:+ nagios.PluginOutput e.

(** [for i, v := range l { if i > 0 { b.WriteRune('\n') };
    b.WriteString(f(v)) }] on the builder [b]. *)
Fixpoint writeEntries {A : Type} (f : A -> string) (l : list A)
    (i : nat) (b : string) : string :=
  match l with
  | [] => b
  | v :: l' =>
      let b1 := if (0 <? i)%nat then b +:+ newline else b in
      writeEntries f l' (S i) (b1 +:+ f v)
  end.

Definition formatAlerts (alerts : nagios.AlertList) : string :=
  if negb (String.eqb (nagios.TypeText (nagios.AResult alerts)) resultTypeTextSuccess)
  then gettingLogsUnsuccessfulMessage (nagios.TypeText (nagios.AResult alerts))
  else if (List.length (nagios.AData alerts) =? 0)%nat then "No alerts."
  else writeEntries formatAlertListEntry (nagios.AData alerts) 0 "".

Definition formatNotificationListEntry (e : nagios.NotificationListEntry) : string :=
  "[" +:+ formatNagiosTimestamp (nagios.NTimestamp e)
    +:+ "] " +:+ nagios.NObjectType e
    +:+ ": " +:+ formatHostName (nagios.NHostName e) (nagios.NName e)
    +:+ " | " +:+ nagios.NDescription e
    +:+ " | " +:+ nagios.Contact e
    +:+ " | " +:+ nagios.NotificationType e
    +:+ " | " +:+ nagios.Method e
    +:+ " | " +:+ nagios.Message e.

Definition formatNotifications (notifications : nagios.NotificationList) : string :=
  if negb (String.eqb (nagios.TypeText (nagios.NResult notifications)) resultTypeTextSuccess)
  then gettingLogsUnsuccessfulMessage (nagios.TypeText (nagios.NResult notifications))
  else if (List.length (nagios.NData notifications) =? 0)%nat then "No notifications."
  else writeEntries formatNotificationListEntry (nagios.NData notifications) 0 "".

(** Results are [(hostName, serviceDescription, message, ok)]. *)
Definition getLogsSpecific (parameters : list string)
    : string * string * string * bool :=
  match parameters with
  | [] => ("", "", "", true)
  | p0 :: rest =>
      if String.eqb p0 "host" then
        match rest with
        | [] => ("", "", "You must supply host name.", false)
        | p1 :: _ => (p1, "", "", true)
        end
      else if String.eqb p0 "service" then
        match rest with
        | [] => ("", "", "You must supply service description.", false)
        | p1 :: _ => ("", p1, "", true)
        end
      else ("", "", unknownParameterMessage p0, false)
  end.

End Formatting.

(** ** The plugin and what it runs on

    A [World] holds the [Plugin] struct ([client], [subscriptionStop]),
    the state of the host behind [p.API] (the key-value store, and which
    calls the backend fails), and the part of the Go runtime the handlers
    act on (channels, started goroutines, the wall clock). [trace] lists,
    oldest first, the calls a handler made. *)

Definition Chan : Type := nat.

Record chanState : Type := { cap : nat; buf : list bool }.

(** [go p.addMonitoringReport(channelID, stop)]; the function's body is
    in another file of the plugin. *)
Inductive Goroutine : Type :=
  | addMonitoringReport (channelID : string) (stop : Chan).

Inductive KVCall : Type :=
  | KVGetCall (key : string)
  | KVSetCall (key : string) (value : string)
  | KVDeleteCall (key : string).

Inductive Event : Type :=
  | EvKV (c : KVCall)
  | EvLogError (msg : string) (e : error)
  | EvQuery (q : nagios.Request)
  | EvMakeChan (c : Chan)
  | EvGo (g : Goroutine)
  | EvSend (c : Chan) (v : bool).

Record World : Type := {
  kv : gmap string string;
  kvFails : KVCall -> bool;
  client : nagios.Client;
  subscriptionStop : option Chan;      (* nil is [None] *)
  chans : list chanState;
  goroutines : list Goroutine;
  clock : Z;
  trace : list Event }.

Definition set_kv (m : gmap string string) (w : World) : World :=
  {| kv := m; kvFails := kvFails w; client := client w;
     subscriptionStop := subscriptionStop w; chans := chans w;
     goroutines := goroutines w; clock := clock w; trace := trace w |}.

Definition set_subscriptionStop (c : option Chan) (w : World) : World :=
  {| kv := kv w; kvFails := kvFails w; client := client w;
     subscriptionStop := c; chans := chans w;
     goroutines := goroutines w; clock := clock w; trace := trace w |}.

Definition set_chans (l : list chanState) (w : World) : World :=
  {| kv := kv w; kvFails := kvFails w; client := client w;
     subscriptionStop := subscriptionStop w; chans := l;
     goroutines := goroutines w; clock := clock w; trace := trace w |}.

Definition set_goroutines (l : list Goroutine) (w : World) : World :=
  {| kv := kv w; kvFails := kvFails w; client := client w;
     subscriptionStop := subscriptionStop w; chans := chans w;
     goroutines := l; clock := clock w; trace := trace w |}.

Definition set_trace (l : list Event) (w : World) : World :=
  {| kv := kv w; kvFails := kvFails w; client := client w;
     subscriptionStop := subscriptionStop w; chans := chans w;
     goroutines := goroutines w; clock := clock w; trace := l |}.

(** A handler either returns or stays blocked in a channel operation. *)
Inductive outcome (A : Type) : Type :=
  | Done (a : A)
  | Blocked.
Arguments Done {A} a.
Arguments Blocked {A}.

Definition M (A : Type) : Type := World -> outcome A * World.

#[global] Instance M_ret : MRet M := fun A a w => (Done a, w).

#[global] Instance M_bind : MBind M := fun A B f m w =>
  match m w with
  | (Done a, w') => f a w'
  | (Blocked, w') => (Blocked, w')
  end.

Definition record (e : Event) (w : World) : World :=
  set_trace (trace w ++ [e]) w.

Definition emit (e : Event) : M unit :=
  fun w => (Done tt, record e w).

(** *** plugin.API: a failing call leaves the store as it is *)

Definition KVGet (key : string) : M (result (option string)) :=
  fun w =>
    let w := record (EvKV (KVGetCall key)) w in
    if kvFails w (KVGetCall key) then (Done (Err AppError), w)
    else (Done (Ok (kv w !! key)), w).

Definition KVSet (key value : string) : M (option error) :=
  fun w =>
    let w := record (EvKV (KVSetCall key value)) w in
    if kvFails w (KVSetCall key value) then (Done (Some AppError), w)
    else (Done None, set_kv (<[key := value]> (kv w)) w).

Definition KVDelete (key : string) : M (option error) :=
  fun w =>
    let w := record (EvKV (KVDeleteCall key)) w in
    if kvFails w (KVDeleteCall key) then (Done (Some AppError), w)
    else (Done None, set_kv (delete key (kv w)) w).

Definition LogError (msg : string) (e : error) : M unit :=
  emit (EvLogError msg e).

(** The bytes of a [[]byte]; [nil] and the empty slice read the same. *)
Definition bytes (b : option string) : string := default "" b.

(** *** The Nagios client *)

Definition QueryAlerts (q : nagios.GeneralRequest) : M (result nagios.AlertList) :=
  fun w =>
    (Done (nagios.QueryAlerts (client w) q),
     record (EvQuery (nagios.AlertListRequest q)) w).

Definition QueryNotifications (q : nagios.GeneralRequest)
    : M (result nagios.NotificationList) :=
  fun w =>
    (Done (nagios.QueryNotifications (client w) q),
     record (EvQuery (nagios.NotificationListRequest q)) w).

(** *** The Go runtime *)

Definition Now : M Z := fun w => (Done (clock w), w).

(** [make(chan bool, n)]. *)
Definition makeChan (n : nat) : M Chan :=
  fun w =>
    let c := List.length (chans w) in
    (Done c, record (EvMakeChan c)
               (set_chans (chans w ++ [{| cap := n; buf := [] |}]) w)).

(** [go g]. *)
Definition go (g : Goroutine) : M unit :=
  fun w => (Done tt, record (EvGo g) (set_goroutines (goroutines w ++ [g]) w)).

(** [c <- v] with no receiver waiting: a send on a nil channel blocks
    forever, a send on a channel whose buffer is full blocks until a
    receiver takes a value, otherwise the value is queued. *)
Definition send (c : option Chan) (v : bool) : M unit :=
  fun w =>
    match c with
    | None => (Blocked, w)
    | Some i =>
        match chans w !! i with
        | None => (Blocked, w)
        | Some ch =>
            if (List.length (buf ch) <? cap ch)%nat then
              (Done tt,
               record (EvSend i v)
                 (set_chans (<[i := {| cap := cap ch; buf := buf ch ++ [v] |}]> (chans w)) w))
            else (Blocked, w)
        end
    end.

(** [p.subscriptionStop = c]. *)
Definition storeSubscriptionStop (c : Chan) : M unit :=
  fun w => (Done tt, set_subscriptionStop (Some c) w).

Definition loadSubscriptionStop : M (option Chan) :=
  fun w => (Done (subscriptionStop w), w).

(** ** Handlers *)

Section Handlers.

Variable Local : time.Location.
Variable emoji : string -> string.

(** The JSON text of a Go string; [json.Marshal] of a string returns
    no error. *)
Variable jsonString : string -> string.

Definition Marshal_string (s : string) : result string := Ok (jsonString s).

Definition getLogsLimit : M (result Z) :=
  r ← KVGet logsLimitKey;
  match r with
  | Err e => mret (Err (Errorf "api.KVGet" e))
  | Ok b =>
      match json.Unmarshal_int (bytes b) 0 with
      | Err e => mret (Err (Errorf "json.Unmarshal" e))
      | Ok limit => mret (Ok limit)
      end
  end.

Definition setLogsLimit (parameters : list string) : M string :=
  if negb (List.length parameters =? 1)%nat then
    mret "You must supply exactly one parameter (integer value)."
  else
    match strconv.Atoi (hd "" parameters) with
    | Err e => LogError "Atoi" e;; mret settingLogsLimitUnsuccessful
    | Ok i =>
        if i <=? 0 then
          mret "Invalid argument - logs limit must be a positive integer."
        else
          match json.Marshal_int i with
          | Err e => LogError "Marshal" e;; mret settingLogsLimitUnsuccessful
          | Ok b =>
              err ← KVSet logsLimitKey b;
              match err with
              | Some e => LogError "KVSet" e;; mret settingLogsLimitUnsuccessful
              | None => mret "Limit set successfully."
              end
          end
    end.

(** The result is a [time.Duration]: [int64] nanoseconds. *)
Definition getLogsStartTime : M (result Z) :=
  r ← KVGet logsStartTimeKey;
  match r with
  | Err e => mret (Err (Errorf "api.KVGet" e))
  | Ok b =>
      match json.Unmarshal_int (bytes b) 0 with
      | Err e => mret (Err (Errorf "json.Unmarshal" e))
      | Ok seconds => mret (Ok (wrap64 (seconds * time.Second)))
      end
  end.

Definition setLogsStartTime (parameters : list string) : M string :=
  if negb (List.length parameters =? 1)%nat then
    mret "You must supply exactly one parameter (number of seconds)."
  else
    match strconv.ParseInt (hd "" parameters) with
    | Err e => LogError "ParseInt" e;; mret settingLogsStartTimeUnsuccessful
    | Ok i =>
        if i <=? 0 then
          mret "Invalid argument - start time must be a positive integer."
        else
          match json.Marshal_int i with
          | Err e => LogError "Marshal" e;; mret settingLogsStartTimeUnsuccessful
          | Ok b =>
              err ← KVSet logsStartTimeKey b;
              match err with
              | Some e => LogError "KVSet" e;; mret settingLogsStartTimeUnsuccessful
              | None => mret "Start time set successfully."
              end
          end
    end.

Definition getLogs (parameters : list string) : M string :=
  match parameters with
  | [] => mret "You must supply at least one parameter (alerts|notifications)."
  | p0 :: rest =>
      rc ← getLogsLimit;
      match rc with
      | Err e => LogError "getLogsLimit" e;; mret gettingLogsUnsuccessful
      | Ok c =>
          let '(hostName, serviceDescription, message, ok) := getLogsSpecific rest in
          if negb ok then mret message
          else
            rd ← getLogsStartTime;
            match rd with
            | Err e => LogError "getLogsStartTime" e;; mret gettingLogsUnsuccessful
            | Ok d =>
                now ← Now;
                let then_ := time.Add now (wrap64 (- d)) in
                let q := {| nagios.Enumerate := true;
                            nagios.Count := c;
                            nagios.ReqHostName := hostName;
                            nagios.ServiceDescription := serviceDescription;
                            nagios.StartTime := time.Unix then_;
                            nagios.EndTime := time.Unix now |} in
                if String.eqb p0 "alerts" then
                  r ← QueryAlerts q;
                  match r with
                  | Err e => LogError "Query" e;; mret gettingLogsUnsuccessful
                  | Ok alerts => mret (formatAlerts Local emoji alerts)
                  end
                else if String.eqb p0 "notifications" then
                  r ← QueryNotifications q;
                  match r with
                  | Err e => LogError "Query" e;; mret gettingLogsUnsuccessful
                  | Ok notifications => mret (formatNotifications Local notifications)
                  end
                else mret (unknownParameterMessage p0)
            end
      end
  end.

Definition getReportFrequency : M (result Z) :=
  r ← KVGet reportFrequencyKey;
  match r with
  | Err e => mret (Err (Errorf "api.KVGet" e))
  | Ok b =>
      match json.Unmarshal_int (bytes b) 0 with
      | Err e => mret (Err (Errorf "json.Unmarshal" e))
      | Ok minutes => mret (Ok (wrap64 (minutes * time.Minute)))
      end
  end.

Definition setReportFrequency (parameters : list string) : M string :=
  if negb (List.length parameters =? 1)%nat then
    mret "You must supply exactly one parameter (number of minutes)."
  else
    match strconv.Atoi (hd "" parameters) with
    | Err e => LogError "Atoi" e;; mret settingReportFrequencyUnsuccessful
    | Ok i =>
        if i <=? 0 then
          mret "Invalid argument - report frequency must be a positive integer."
        else
          match json.Marshal_int i with
          | Err e => LogError "Marshal" e;; mret settingReportFrequencyUnsuccessful
          | Ok b =>
              err ← KVSet reportFrequencyKey b;
              match err with
              | Some e => LogError "KVSet" e;; mret settingReportFrequencyUnsuccessful
              | None => mret "Report frequency set successfully."
              end
          end
    end.

Definition setReportChannel (channelID : string) : M string :=
  match Marshal_string channelID with
  | Err e => LogError "Marshal" e;; mret settingReportChannelUnsuccessful
  | Ok b =>
      err ← KVSet reportChannelKey b;
      match err with
      | Some e => LogError "KVSet" e;; mret settingReportChannelUnsuccessful
      | None => mret "Subscribed to system monitoring report successfully."
      end
  end.

Definition setChangesChannel (channelID : string) : M string :=
  match Marshal_string channelID with
  | Err e => LogError "Marshal" e;; mret settingChangesChannelUnsuccessful
  | Ok b =>
      err ← KVSet changesChannelKey b;
      match err with
      | Some e => LogError "KVSet" e;; mret settingChangesChannelUnsuccessful
      | None => mret "Subscribed to configuration changes successfully."
      end
  end.

Definition subscribe (channelID : string) (parameters : list string) : M string :=
  if negb (List.length parameters =? 1)%nat then
    mret "You must supply exactly one parameter (report|configuration-changes)."
  else
    let p0 := hd "" parameters in
    if String.eqb p0 "report" then
      stop ← makeChan 1;
      go (addMonitoringReport channelID stop);;
      storeSubscriptionStop stop;;
      setReportChannel channelID
    else if String.eqb p0 "configuration-changes" then
      setChangesChannel channelID
    else mret (unknownParameterMessage p0).

Definition unsubscribe (parameters : list string) : M string :=
  if negb (List.length parameters =? 1)%nat then
    mret "You must supply exactly one parameter (report|configuration-changes)."
  else
    let p0 := hd "" parameters in
    if String.eqb p0 "report" then
      c ← loadSubscriptionStop;
      send c true;;
      err ← KVDelete reportChannelKey;
      match err with
      | Some e => LogError "KVDelete" e;; mret unsubscribingUnsuccessful
      | None => mret "Unsubscribed successfully."
      end
    else if String.eqb p0 "configuration-changes" then
      err ← KVDelete changesChannelKey;
      match err with
      | Some e => LogError "KVDelete" e;; mret unsubscribingUnsuccessful
      | None => mret "Unsubscribed successfully."
      end
    else mret (unknownParameterMessage p0).

End Handlers.

(** ** Sample worlds *)

Definition noFaults : KVCall -> bool := fun _ => false.

Definition successResult : nagios.Result := {| nagios.TypeText := "Success" |}.

Definition emptyClient : nagios.Client :=
  {| nagios.QueryAlerts := fun _ =>
       Ok {| nagios.AResult := successResult; nagios.AData := [] |};
     nagios.QueryNotifications := fun _ =>
       Ok {| nagios.NResult := successResult; nagios.NData := [] |} |}.

(** A plugin that has stored nothing and never started a report task. *)
Definition freshWorld : World :=
  {| kv := ∅; kvFails := noFaults; client := emptyClient;
     subscriptionStop := None; chans := []; goroutines := [];
     clock := 1700000000 * time.Second; trace := [] |}.

(** A plugin whose store holds the three default settings. *)
Definition configuredWorld : World :=
  set_kv (<[logsLimitKey := "50"]>
            (<[logsStartTimeKey := "86400"]>
               (<[reportFrequencyKey := "10"]> ∅))) freshWorld.

(** The same, with a backend that fails every call. *)
Definition brokenWorld : World :=
  {| kv := kv configuredWorld; kvFails := fun _ => true; client := emptyClient;
     subscriptionStop := None; chans := []; goroutines := [];
     clock := 1700000000 * time.Second; trace := [] |}.

(** Sample records. [bracketState] stands in for the plugin's emoji
    table. *)
Definition bracketState (state : string) : string := "<" +:+ state +:+ ">".

Definition failureResult : nagios.Result := {| nagios.TypeText := "Failure" |}.

Definition sampleAlert : nagios.AlertListEntry :=
  {| nagios.Timestamp := 1700000000000; nagios.ObjectType := "service";
     nagios.HostName := "web1"; nagios.Description := "HTTP";
     nagios.Name := ""; nagios.StateType := "hard";
     nagios.State := "critical"; nagios.PluginOutput := "timed out" |}.

Definition sampleHostAlert : nagios.AlertListEntry :=
  {| nagios.Timestamp := 1700000000999; nagios.ObjectType := "host";
     nagios.HostName := ""; nagios.Description := "";
     nagios.Name := "db1"; nagios.StateType := "soft";
     nagios.State := "down"; nagios.PluginOutput := "unreachable" |}.

Definition sampleNotification : nagios.NotificationListEntry :=
  {| nagios.NTimestamp := 1700000000000; nagios.NObjectType := "service";
     nagios.NHostName := "web1"; nagios.NDescription := "HTTP";
     nagios.NName := ""; nagios.Contact := "ops";
     nagios.NotificationType := "critical"; nagios.Method := "notify-by-email";
     nagios.Message := "timed out" |}.

(** Stands in for the JSON text of a channel identifier: the identifier
    between double quotes. *)
Definition quoted (s : string) : string :=
  String "034" (s +:+ String "034" EmptyString).

(** The configured plugin after [subscribe report] in the channel "ops". *)
Definition subscribedWorld : World :=
  (subscribe quoted "ops" ["report"] configuredWorld).2.

(** ** The world in the middle of [subscribe report]

    What [subscribe] has done when it calls [setReportChannel]: made the
    stop channel, started the report task on it and stored the channel in
    [p.subscriptionStop]. *)
Definition reportStarted (channelID : string) (w : World) : World :=
  let stop := List.length (chans w) in
  let task := addMonitoringReport channelID stop in
  set_subscriptionStop (Some stop)
    (record (EvGo task)
       (set_goroutines (goroutines w ++ [task])
          (record (EvMakeChan stop)
             (set_chans (chans w ++ [{| cap := 1; buf := [] |}]) w)))).

(** ** Statements shared by the setters *)

(** A setter [h] for [key] with confirmation [success] and number parser
    [parse]: it always returns; with the confirmation, the single
    parameter parsed to a positive [i] and the store is the old one with
    the text of [i] under [key]; with any other message the store is the
    old one. *)
Definition settingWrite (key success : string) (parse : string -> result Z)
    (h : list string -> M string) : Prop :=
  forall (parameters : list string) (w : World),
    exists msg, (h parameters w).1 = Done msg /\
      ((msg = success /\
        exists p i, parameters = [p] /\ parse p = Ok i /\ 0 < i /\
          kv (h parameters w).2 = <[key := strconv.FormatInt i]> (kv w))
       \/ (msg <> success /\ kv (h parameters w).2 = kv w)).

(** ** The changes channel *)

Section ChangesChannel.

(** [json.Unmarshal] of the stored bytes into a string variable that
    holds the empty string. *)
Variable jsonUnmarshalString : string -> result string.

(** A key that is absent reads as a nil slice, which is answered with the
    empty channel and no error. *)
Definition getChangesChannel : M (result string) :=
  r ← KVGet changesChannelKey;
  match r with
  | Err e => mret (Err (Errorf "api.KVGet" e))
  | Ok None => mret (Ok "")
  | Ok (Some b) =>
      match jsonUnmarshalString b with
      | Err e => mret (Err (Errorf "json.Unmarshal" e))
      | Ok channel => mret (Ok channel)
      end
  end.

End ChangesChannel.

(** ** Command handlers

    The functions of type [commandHandlerFunc]: each takes the plugin
    (here the world), the channel the command came from and the
    parameters, and calls the method of the same name. *)

Definition commandHandlerFunc : Type := string -> list string -> M string.

Module cmd.
Section Wrappers.

Variable Local : time.Location.
Variable emoji : string -> string.
Variable jsonString : string -> string.

Definition setLogsLimit : commandHandlerFunc :=
  fun channelID parameters => setLogsLimit parameters.

Definition setLogsStartTime : commandHandlerFunc :=
  fun channelID parameters => setLogsStartTime parameters.

Definition getLogs : commandHandlerFunc :=
  fun channelID parameters => getLogs Local emoji parameters.

Definition setReportFrequency : commandHandlerFunc :=
  fun channelID parameters => setReportFrequency parameters.

Definition subscribe : commandHandlerFunc :=
  fun channelID parameters => subscribe jsonString channelID parameters.

Definition unsubscribe : commandHandlerFunc :=
  fun channelID parameters => unsubscribe parameters.

End Wrappers.
End cmd.

(** One command as it reaches a handler. *)
Inductive Handler : Type :=
  | HSetLogsLimit
  | HSetLogsStartTime
  | HGetLogs
  | HSetReportFrequency
  | HSubscribe
  | HUnsubscribe.

Record Call : Type := {
  callee : Handler;
  callChannel : string;
  callParameters : list string }.

Section Calls.

Variable Local : time.Location.
Variable emoji : string -> string.
Variable jsonString : string -> string.

Definition handlerFunc (h : Handler) : commandHandlerFunc :=
  match h with
  | HSetLogsLimit => cmd.setLogsLimit
  | HSetLogsStartTime => cmd.setLogsStartTime
  | HGetLogs => cmd.getLogs Local emoji
  | HSetReportFrequency => cmd.setReportFrequency
  | HSubscribe => cmd.subscribe jsonString
  | HUnsubscribe => cmd.unsubscribe
  end.

Definition call (c : Call) : M string :=
  handlerFunc (callee c) (callChannel c) (callParameters c).

(** The world after a sequence of commands handled one after the other;
    a call that blocks leaves the world to the next one. *)
Fixpoint calls (cs : list Call) (w : World) : World :=
  match cs with
  | [] => w
  | c :: cs' => calls cs' (call c w).2
  end.

End Calls.

(** The store key a call may write or delete, if any. *)
Definition writtenKey (c : Call) : option string :=
  match callee c, callParameters c with
  | HSetLogsLimit, [_] => Some logsLimitKey
  | HSetLogsStartTime, [_] => Some logsStartTimeKey
  | HSetReportFrequency, [_] => Some reportFrequencyKey
  | HSubscribe, [p] | HUnsubscribe, [p] =>
      if String.eqb p "report" then Some reportChannelKey
      else if String.eqb p "configuration-changes" then Some changesChannelKey
      else None
  | _, _ => None
  end.

(** ** Well-formed worlds

    The stop field, when set, holds the channel made last; there is one
    started report task per channel, the i-th on channel i; every channel
    has capacity 1 and holds at most one value. *)
Definition wellFormed (w : World) : Prop :=
  List.length (goroutines w) = List.length (chans w) /\
  (forall i g, goroutines w !! i = Some g -> exists channelID, g = addMonitoringReport channelID i) /\
  (forall i ch, chans w !! i = Some ch -> cap ch = 1%nat /\ (List.length (buf ch) <= 1)%nat) /\
  match subscriptionStop w with
  | Some c => S c = List.length (chans w)
  | None => chans w = []
  end.

(** The channel [c] exists and the stop field holds a later one. *)
Definition superseded (c : Chan) (w : World) : Prop :=
  exists k, subscriptionStop w = Some k /\ (c < k < List.length (chans w))%nat.

(** The largest number of seconds, and of minutes, whose duration in
    nanoseconds fits [int64]. *)
Definition maxSeconds : Z := 9223372036.
Definition maxMinutes : Z := 153722867.

(** Events of calls that change nothing: a store read, a log entry, a
    query to the monitoring backend. *)
Definition readOnlyEvent (e : Event) : bool :=
  match e with
  | EvKV (KVGetCall _) | EvLogError _ _ | EvQuery _ => true
  | _ => false
  end.

(** The request [getLogs] builds from the limit [c], the filters and a
    lookback of [s] seconds at the instant [now]. *)
Definition logRequest (c : Z) (hostName serviceDescription : string) (s now : Z)
    : nagios.GeneralRequest :=
  {| nagios.Enumerate := true;
     nagios.Count := c;
     nagios.ReqHostName := hostName;
     nagios.ServiceDescription := serviceDescription;
     nagios.StartTime := time.Unix now - s;
     nagios.EndTime := time.Unix now |}.

(** ** The formatters as the process runs them

    A Go function may read and change whatever the process holds. Here
    the formatters are written once more as computations on the whole
    process: the world of the handlers (store, channels, wall clock,
    record of calls) and the process-wide [time.Local], which
    [Time.String] reads. The state indicator [emoji], whose code is in
    another file of the plugin, is a computation as well. *)

Record Process : Type := {
  procWorld : World;
  procLocal : time.Location }.

Definition P (A : Type) : Type := Process -> outcome A * Process.

#[global] Instance P_ret : MRet P := fun A a p => (Done a, p).

#[global] Instance P_bind : MBind P := fun A B f m p =>
  match m p with
  | (Done a, p') => f a p'
  | (Blocked, p') => (Blocked, p')
  end.

(** A computation of the handlers' monad, run on the process's world. *)
Definition liftWorld {A : Type} (m : M A) : P A :=
  fun p =>
    let '(o, w) := m (procWorld p) in
    (o, {| procWorld := w; procLocal := procLocal p |}).

(** Reading [time.Local]. *)
Definition timeLocal : P time.Location := fun p => (Done (procLocal p), p).

(** [time.Unix(sec, 0).String()]. *)
Definition runUnixString (sec : Z) : P string :=
  loc ← timeLocal; mret (time.UnixString loc sec).

Section RunFormatting.

Variable runEmoji : string -> P string.

Definition runFormatNagiosTimestamp (t : Z) : P string :=
  runUnixString (Z.quot t 1000).

(** The arguments of [Sprintf] are evaluated from left to right. *)
Definition runFormatAlertListEntry (e : nagios.AlertListEntry) : P string :=
  mark ← runEmoji (nagios.State e);
  stamp ← runFormatNagiosTimestamp (nagios.Timestamp e);
  mret (mark
          +:+ " [" +:+ stamp
          +:+ "] " +:+ nagios.ObjectType e
          +:+ ": " +:+ formatHostName (nagios.HostName e) (nagios.Name e)
          +:+ " | " +:+ nagios.Description e
          +:+ " | " +:+ nagios.StateType e
          +:+ " | " +:+ nagios.State e
          +:+ " | " +:+ nagios.PluginOutput e).

Definition runFormatNotificationListEntry (e : nagios.NotificationListEntry) : P string :=
  stamp ← runFormatNagiosTimestamp (nagios.NTimestamp e);
  mret ("[" +:+ stamp
          +:+ "] " +:+ nagios.NObjectType e
          +:+ ": " +:+ formatHostName (nagios.NHostName e) (nagios.NName e)
          +:+ " | " +:+ nagios.NDescription e
          +:+ " | " +:+ nagios.Contact e
          +:+ " | " +:+ nagios.NotificationType e
          +:+ " | " +:+ nagios.Method e
          +:+ " | " +:+ nagios.Message e).

(** The loop over the records, on the builder [b]. *)
Fixpoint runWriteEntries {A : Type} (f : A -> P string) (l : list A)
    (i : nat) (b : string) : P string :=
  match l with
  | [] => mret b
  | v :: l' =>
      let b1 := if (0 <? i)%nat then b +:+ newline else b in
      line ← f v;
      runWriteEntries f l' (S i) (b1 +:+ line)
  end.

Definition runFormatAlerts (alerts : nagios.AlertList) : P string :=
  if negb (String.eqb (nagios.TypeText (nagios.AResult alerts)) resultTypeTextSuccess)
  then mret (gettingLogsUnsuccessfulMessage (nagios.TypeText (nagios.AResult alerts)))
  else if (List.length (nagios.AData alerts) =? 0)%nat then mret "No alerts."
  else runWriteEntries runFormatAlertListEntry (nagios.AData alerts) 0 "".

Definition runFormatNotifications (notifications : nagios.NotificationList) : P string :=
  if negb (String.eqb (nagios.TypeText (nagios.NResult notifications)) resultTypeTextSuccess)
  then mret (gettingLogsUnsuccessfulMessage (nagios.TypeText (nagios.NResult notifications)))
  else if (List.length (nagios.NData notifications) =? 0)%nat then mret "No notifications."
  else runWriteEntries runFormatNotificationListEntry (nagios.NData notifications) 0 "".

End RunFormatting.

(** Two sample processes: they differ in the store, the wall clock, the
    backend and the record of calls, and hold two copies of the UTC zone. *)
Definition processA : Process :=
  {| procWorld := freshWorld; procLocal := time.UTC |}.

Definition processB : Process :=
  {| procWorld :=
       {| kv := kv configuredWorld; kvFails := fun _ => true; client := emptyClient;
          subscriptionStop := Some 0%nat; chans := [{| cap := 1; buf := [true] |}];
          goroutines := [addMonitoringReport "ops" 0%nat];
          clock := 1800000000 * time.Second + 7;
          trace := [EvKV (KVGetCall logsLimitKey)] |};
     procLocal := {| time.lookup := fun sec => ("UTC", sec * 0) |} |}.

(** A state indicator that only looks its argument up. *)
Definition runBracketState (state : string) : P string :=
  fun p => (Done (bracketState state), p).

(** * Properties *)

(** ** Conversions on sample texts *)

Example Atoi_examples :
  strconv.Atoi "42" = Ok 42 /\ strconv.Atoi "+7" = Ok 7 /\
  strconv.Atoi "-0" = Ok 0 /\ strconv.Atoi "007" = Ok 7 /\
  strconv.Atoi "" = Err ErrSyntax /\ strconv.Atoi "-" = Err ErrSyntax /\
  strconv.Atoi "12a" = Err ErrSyntax /\ strconv.Atoi "1_000" = Err ErrSyntax /\
  strconv.Atoi "9223372036854775807" = Ok maxInt64 /\
  strconv.Atoi "9223372036854775808" = Err ErrRange /\
  strconv.Atoi "-9223372036854775808" = Ok minInt64 /\
  strconv.Atoi "-9223372036854775809" = Err ErrRange /\
  strconv.Atoi "99999999999999999999999x" = Err ErrRange.
Proof. repeat split; vm_compute; reflexivity. Qed.

Example FormatInt_examples :
  strconv.FormatInt 0 = "0" /\ strconv.FormatInt 50 = "50" /\
  strconv.FormatInt (-86400) = "-86400" /\
  strconv.FormatInt maxInt64 = "9223372036854775807" /\
  strconv.FormatInt minInt64 = "-9223372036854775808".
Proof. repeat split; vm_compute; reflexivity. Qed.

Example Unmarshal_int_examples :
  json.Unmarshal_int "50" 0 = Ok 50 /\ json.Unmarshal_int " 50 " 0 = Ok 50 /\
  json.Unmarshal_int "null" 0 = Ok 0 /\ json.Unmarshal_int "" 0 = Err ErrJSON /\
  json.Unmarshal_int "050" 0 = Err ErrJSON /\ json.Unmarshal_int "5.0" 0 = Err ErrJSON /\
  json.Unmarshal_int "+5" 0 = Err ErrJSON /\ json.Unmarshal_int "5 0" 0 = Err ErrJSON /\
  json.Unmarshal_int "9223372036854775808" 0 = Err ErrJSON.
Proof. repeat split; vm_compute; reflexivity. Qed.

(** ** Decimal text *)

Module strconv_facts.
Import strconv.

Lemma byteVal_digitChar (d : Z) :
  0 <= d < 10 -> byteVal (digitChar d) = 48 + d.
Proof.
  intros Hd. unfold byteVal, digitChar.
  rewrite N_ascii_embedding by lia. lia.
Qed.

Lemma isDigit_digitChar (d : Z) : 0 <= d < 10 -> isDigit (digitChar d) = true.
Proof.
  intros Hd. unfold isDigit. rewrite byteVal_digitChar by exact Hd.
  apply andb_true_iff. split; apply Z.leb_le; lia.
Qed.

Ltac eval_digitChar :=
  match goal with
  | |- context [digitChar ?k] =>
      let c := eval vm_compute in (digitChar k) in
      change (digitChar k) with c
  end.

(** One round of the parsing loop on a digit that does not overflow. *)
Lemma parseUintLoop_digit (d n : Z) (s : string) :
  0 <= d < 10 -> 0 <= n -> n * 10 + d <= maxUint64 ->
  parseUintLoop (String (digitChar d) s) n = parseUintLoop s (n * 10 + d).
Proof.
  intros Hd Hn Hmax. cbn [parseUintLoop].
  rewrite isDigit_digitChar by exact Hd. cbn [negb].
  rewrite byteVal_digitChar by exact Hd.
  unfold maxUint64 in *.
  replace (2 ^ 64 - 1) with 18446744073709551615 in * by reflexivity.
  replace (18446744073709551615 / 10 + 1) with 1844674407370955162 by reflexivity.
  destruct (Z.leb_spec 1844674407370955162 n) as [Hc|Hc]; [lia|].
  unfold wrapU64.
  replace (2 ^ 64) with 18446744073709551616 by reflexivity.
  rewrite (Z.mod_small (n * 10)) by lia.
  replace (48 + d - 48) with d by lia.
  rewrite (Z.mod_small (n * 10 + d)) by lia.
  destruct (Z.ltb_spec (n * 10 + d) (n * 10)) as [H1|H1]; [lia|].
  destruct (Z.ltb_spec 18446744073709551615 (n * 10 + d)) as [H2|H2]; [lia|].
  reflexivity.
Qed.

(** Parsing the digits written by [formatBits] in front of [acc]
    continues on [acc] with the number written. *)
Lemma parseUintLoop_formatBits (f : nat) :
  forall (u : Z) (acc : string),
    0 <= u <= maxUint64 -> u < 10 ^ Z.of_nat f ->
    parseUintLoop (formatBits f u acc) 0 = parseUintLoop acc u.
Proof.
  induction f as [|f IH]; intros u acc Hu Hlt.
  - change (10 ^ Z.of_nat 0) with 1 in Hlt.
    assert (u = 0) by lia. subst u. reflexivity.
  - cbn [formatBits].
    destruct (Z.ltb_spec u 10) as [Hs|Hs].
    + rewrite parseUintLoop_digit; [f_equal; lia|lia|lia|unfold maxUint64 in *; lia].
    + rewrite Nat2Z.inj_succ, Z.pow_succ_r in Hlt by lia.
      assert (Hdm : u = 10 * (u / 10) + u mod 10) by (apply Z.div_mod; lia).
      assert (Hm : 0 <= u mod 10 < 10) by (apply Z.mod_pos_bound; lia).
      rewrite IH by (unfold maxUint64 in *; lia).
      rewrite parseUintLoop_digit by (unfold maxUint64 in *; lia).
      f_equal. lia.
Qed.

(** The text of a positive number starts with a digit from 1 to 9. *)
Lemma formatBits_head (f : nat) :
  forall (u : Z) (acc : string),
    0 < u -> u < 10 ^ Z.of_nat f ->
    exists d r, 1 <= d <= 9 /\ formatBits f u acc = String (digitChar d) r.
Proof.
  induction f as [|f IH]; intros u acc Hu Hlt.
  - change (10 ^ Z.of_nat 0) with 1 in Hlt. lia.
  - cbn [formatBits].
    destruct (Z.ltb_spec u 10) as [Hs|Hs].
    + exists u, acc. split; [lia|reflexivity].
    + rewrite Nat2Z.inj_succ, Z.pow_succ_r in Hlt by lia.
      assert (Hdm : u = 10 * (u / 10) + u mod 10) by (apply Z.div_mod; lia).
      assert (Hm : 0 <= u mod 10 < 10) by (apply Z.mod_pos_bound; lia).
      apply IH; lia.
Qed.

Lemma allDigits_formatBits (f : nat) :
  forall (u : Z) (acc : string),
    0 <= u -> json.allDigits acc = true ->
    json.allDigits (formatBits f u acc) = true.
Proof.
  induction f as [|f IH]; intros u acc Hu Hacc; [exact Hacc|].
  cbn [formatBits].
  destruct (Z.ltb_spec u 10) as [Hs|Hs].
  - cbn [json.allDigits]. rewrite isDigit_digitChar by lia. exact Hacc.
  - assert (Hm : 0 <= u mod 10 < 10) by (apply Z.mod_pos_bound; lia).
    apply IH; [apply Z.div_pos; lia|].
    cbn [json.allDigits]. rewrite isDigit_digitChar by lia. exact Hacc.
Qed.

Lemma parseUintLoop_range (s : string) :
  forall n v, 0 <= n <= maxUint64 -> parseUintLoop s n = Ok v ->
              0 <= v <= maxUint64.
Proof.
  induction s as [|c s IH]; intros n v Hn H; cbn [parseUintLoop] in H.
  - injection H as <-. exact Hn.
  - destruct (negb (isDigit c)); [discriminate|].
    destruct (maxUint64 / 10 + 1 <=? n); [discriminate|].
    destruct (_ || _); [discriminate|].
    apply IH in H; [exact H|].
    unfold wrapU64, maxUint64.
    pose proof (Z.mod_pos_bound (wrapU64 (n * 10) + (byteVal c - 48)) (2 ^ 64)).
    unfold wrapU64 in *. lia.
Qed.

Lemma ParseInt_range (s : string) (n : Z) :
  ParseInt s = Ok n -> minInt64 <= n <= maxInt64.
Proof.
  unfold ParseInt. destruct s as [|c s']; [discriminate|].
  set (s1 := if (c =? "+")%char || (c =? "-")%char then s' else String c s').
  destruct (ParseUint s1) as [un|e] eqn:Hu; [|destruct e; discriminate].
  assert (Hr : 0 <= un <= maxUint64).
  { unfold ParseUint in Hu. destruct s1; [discriminate|].
    eapply parseUintLoop_range; [|exact Hu]. unfold maxUint64. lia. }
  unfold maxUint64, minInt64, maxInt64, wrap64 in *.
  replace (2 ^ 63) with 9223372036854775808 in * by reflexivity.
  replace (2 ^ 64) with 18446744073709551616 in * by reflexivity.
  destruct (c =? "-")%char; cbn [negb andb].
  - destruct (Z.ltb_spec 9223372036854775808 un) as [H|H]; [discriminate|].
    intros [= <-].
    destruct (Z.eq_dec un 9223372036854775808) as [->|Hne]; [vm_compute; split; discriminate|].
    rewrite (Z.mod_small (un + _)) by lia.
    replace (un + 9223372036854775808 - 9223372036854775808) with un by lia.
    rewrite Z.mod_small by lia. lia.
  - destruct (Z.leb_spec 9223372036854775808 un) as [H|H]; [discriminate|].
    intros [= <-]. rewrite Z.mod_small by lia. lia.
Qed.

(** [Atoi] reads back what [Itoa] writes, for a positive [int]. *)
Lemma Atoi_Itoa (n : Z) : 0 < n <= maxInt64 -> Atoi (Itoa n) = Ok n.
Proof.
  intros Hn. unfold Atoi, Itoa, FormatInt.
  destruct (Z.ltb_spec n 0) as [H|_]; [lia|].
  assert (Hlt : n < 10 ^ Z.of_nat 20) by (unfold maxInt64 in Hn; change (10 ^ Z.of_nat 20) with 100000000000000000000; change (2 ^ 63) with 9223372036854775808 in Hn; lia).
  destruct (formatBits_head 20 n "" ltac:(lia) Hlt) as (d & r & Hd & Heq).
  pose proof (parseUintLoop_formatBits 20 n ""
                ltac:(unfold maxUint64, maxInt64 in *; lia) Hlt) as Hp.
  rewrite Heq in *. unfold ParseInt.
  assert (Hsign : ((digitChar d =? "+")%char || (digitChar d =? "-")%char) = false).
  { assert (Hc : d = 1 \/ d = 2 \/ d = 3 \/ d = 4 \/ d = 5 \/ d = 6 \/ d = 7 \/ d = 8 \/ d = 9) by lia.
    repeat (destruct Hc as [->|Hc]; [reflexivity|]). subst d. reflexivity. }
  rewrite Hsign.
  apply orb_false_iff in Hsign as [_ Hneg]. rewrite Hneg.
  unfold ParseUint. rewrite Hp. cbn [parseUintLoop negb andb].
  unfold maxInt64, wrap64 in *.
  replace (2 ^ 63) with 9223372036854775808 in * by reflexivity.
  replace (2 ^ 64) with 18446744073709551616 in * by reflexivity.
  destruct (Z.leb_spec 9223372036854775808 n) as [H|H]; [lia|].
  rewrite Z.mod_small by lia. f_equal. lia.
Qed.

End strconv_facts.

(** ** JSON integers *)

Module json_facts.
Import strconv json strconv_facts.

Lemma isDigit_not_space (c : ascii) : isDigit c = true -> isSpace c = false.
Proof.
  destruct c as [[] [] [] [] [] [] [] []]; vm_compute; congruence.
Qed.

Lemma scanToken_allDigits (s : string) :
  allDigits s = true -> scanToken s = (s, "").
Proof.
  induction s as [|c s IH]; [reflexivity|].
  cbn [allDigits scanToken]. intros [Hc Hs]%andb_true_iff.
  rewrite (isDigit_not_space c Hc), (IH Hs). reflexivity.
Qed.

(** [Unmarshal] reads back what [Marshal] writes, for a positive [int]. *)
Lemma Unmarshal_Marshal_int (n v0 : Z) :
  0 < n <= maxInt64 ->
  exists b, Marshal_int n = Ok b /\ Unmarshal_int b v0 = Ok n.
Proof.
  intros Hn. exists (FormatInt n). split; [reflexivity|].
  pose proof (Atoi_Itoa n Hn) as Hparse. unfold Atoi, Itoa in Hparse.
  unfold Unmarshal_int. revert Hparse. unfold FormatInt.
  destruct (Z.ltb_spec n 0) as [H|_]; [lia|].
  assert (Hlt : n < 10 ^ Z.of_nat 20) by (unfold maxInt64 in Hn; change (10 ^ Z.of_nat 20) with 100000000000000000000; change (2 ^ 63) with 9223372036854775808 in Hn; lia).
  pose proof (allDigits_formatBits 20 n "" ltac:(lia) eq_refl) as Hall.
  destruct (formatBits_head 20 n "" ltac:(lia) Hlt) as (d & r & Hd & Heq).
  rewrite Heq in *. intros Hparse.
  cbn [allDigits] in Hall. apply andb_true_iff in Hall as [Hc Hr].
  cbn [skipSpace]. rewrite (isDigit_not_space _ Hc).
  rewrite scanToken_allDigits by (cbn [allDigits]; rewrite Hc, Hr; reflexivity).
  cbn [allSpace negb]. rewrite Hparse.
  assert (Hcase : d = 1 \/ d = 2 \/ d = 3 \/ d = 4 \/ d = 5 \/ d = 6 \/ d = 7 \/ d = 8 \/ d = 9) by lia.
  unfold isIntLiteral.
  repeat (destruct Hcase as [->|Hcase];
          [eval_digitChar; cbn; rewrite Hr; reflexivity|]).
  subst d. eval_digitChar. cbn. rewrite Hr. reflexivity.
Qed.

End json_facts.

(** ** Writing a typed setting *)

Section SettingWrites.

Ltac run_setter :=
  cbn [List.length Nat.eqb negb hd];
  unfold json.Marshal_int, LogError, emit, KVSet, mbind, M_bind, mret, M_ret;
  cbn [kvFails record set_trace kv set_kv].

Ltac other_message :=
  eexists; split; [reflexivity|right; split; [discriminate|reflexivity]].

Ltac setter_cases parse :=
  intros parameters w;
  destruct parameters as [|p [|q r]]; run_setter;
    [other_message| |other_message];
  destruct (parse p) as [i|e] eqn:Hp; run_setter; [|other_message];
  destruct (Z.leb_spec i 0) as [Hi|Hi]; run_setter; [other_message|];
  destruct (kvFails w _); run_setter; [other_message|];
  eexists; split; [reflexivity|left]; split; [reflexivity|];
  exists p, i; repeat split; try assumption; lia.

Lemma setLogsLimit_write :
  settingWrite logsLimitKey "Limit set successfully." strconv.Atoi setLogsLimit.
Proof. unfold setLogsLimit. setter_cases strconv.Atoi. Qed.

Lemma setLogsStartTime_write :
  settingWrite logsStartTimeKey "Start time set successfully."
    strconv.ParseInt setLogsStartTime.
Proof. unfold setLogsStartTime. setter_cases strconv.ParseInt. Qed.

Lemma setReportFrequency_write :
  settingWrite reportFrequencyKey "Report frequency set successfully."
    strconv.Atoi setReportFrequency.
Proof. unfold setReportFrequency. setter_cases strconv.Atoi. Qed.

(** C6. Each of set-logs-limit, set-logs-start-time and
    set-report-frequency always returns a message; when the message is the
    confirmation, the parameter parsed to a positive integer and the store
    is the old store with that integer's decimal text under the setting's
    key; with every other message (arity, parse, range or backend error)
    the store is exactly the old store. *)
Theorem setting_writes_are_atomic :
  settingWrite logsLimitKey "Limit set successfully." strconv.Atoi setLogsLimit /\
  settingWrite logsStartTimeKey "Start time set successfully."
    strconv.ParseInt setLogsStartTime /\
  settingWrite reportFrequencyKey "Report frequency set successfully."
    strconv.Atoi setReportFrequency.
Proof.
  split; [|split].
  - exact setLogsLimit_write.
  - exact setLogsStartTime_write.
  - exact setReportFrequency_write.
Qed.

End SettingWrites.

(** ** The logs limit *)

Section LogsLimit.

Import strconv_facts json_facts.

Ltac run :=
  cbn [List.length Nat.eqb negb hd];
  unfold json.Marshal_int, LogError, emit, KVSet, KVGet, mbind, M_bind, mret, M_ret;
  cbn [kvFails record set_trace kv set_kv fst snd].

Lemma setLogsLimit_positive (p : string) (n : Z) (w : World) :
  strconv.Atoi p = Ok n -> 0 < n ->
  kvFails w (KVSetCall logsLimitKey (strconv.FormatInt n)) = false ->
  setLogsLimit [p] w =
    (Done "Limit set successfully.",
     set_kv (<[logsLimitKey := strconv.FormatInt n]> (kv w))
       (record (EvKV (KVSetCall logsLimitKey (strconv.FormatInt n))) w)).
Proof.
  intros Hp Hn Hset. unfold setLogsLimit. run. rewrite Hp.
  destruct (Z.leb_spec n 0) as [H|_]; [lia|]. run. rewrite Hset. reflexivity.
Qed.

Lemma getLogsLimit_stored (b : string) (w : World) :
  kv w !! logsLimitKey = Some b ->
  kvFails w (KVGetCall logsLimitKey) = false ->
  (getLogsLimit w).1 =
    Done (match json.Unmarshal_int b 0 with
          | Ok limit => Ok limit
          | Err e => Err (Errorf "json.Unmarshal" e)
          end).
Proof.
  intros Hb Hget. unfold getLogsLimit. run. rewrite Hget, Hb.
  change (bytes (Some b)) with b. destruct (json.Unmarshal_int b 0); reflexivity.
Qed.

Lemma setLogsLimit_rejected (p : string) (w : World) :
  (forall n, strconv.Atoi p = Ok n -> n <= 0) ->
  kv (setLogsLimit [p] w).2 = kv w /\
  ((setLogsLimit [p] w).1 = Done settingLogsLimitUnsuccessful \/
   (setLogsLimit [p] w).1 =
     Done "Invalid argument - logs limit must be a positive integer.").
Proof.
  intros Hp. unfold setLogsLimit. run.
  destruct (strconv.Atoi p) as [n|e]; run.
  - specialize (Hp n eq_refl).
    destruct (Z.leb_spec n 0) as [_|H]; [|lia]. run. split; [reflexivity|right; reflexivity].
  - split; [reflexivity|left; reflexivity].
Qed.

(** C3, as amended. For every positive integer [n] that fits Go's [int]
    (at most 2^63 - 1), when the backend accepts the write and the read,
    set-logs-limit with the decimal text of [n] returns the confirmation
    and a following read of the logs limit yields [n]. For every single
    parameter that does not parse (not a number, or out of the range of
    [int]) or parses to an integer at most 0, the store is left as it was
    and one of two fixed strings is returned: the generic failure for a
    parse error, the invalid-argument message for a value at most 0. *)
Theorem setLogsLimit_then_getLogsLimit :
  (forall (n : Z) (w : World),
      0 < n <= maxInt64 ->
      kvFails w (KVSetCall logsLimitKey (strconv.FormatInt n)) = false ->
      kvFails w (KVGetCall logsLimitKey) = false ->
      (setLogsLimit [strconv.Itoa n] w).1 = Done "Limit set successfully." /\
      (getLogsLimit (setLogsLimit [strconv.Itoa n] w).2).1 = Done (Ok n)) /\
  (forall (p : string) (w : World),
      (forall n, strconv.Atoi p = Ok n -> n <= 0) ->
      kv (setLogsLimit [p] w).2 = kv w /\
      (match strconv.Atoi p with
       | Err _ => (setLogsLimit [p] w).1 = Done settingLogsLimitUnsuccessful
       | Ok _ => (setLogsLimit [p] w).1 =
                   Done "Invalid argument - logs limit must be a positive integer."
       end)).
Proof.
  split.
  - intros n w Hn Hset Hget.
    rewrite (setLogsLimit_positive _ n w (Atoi_Itoa n Hn) ltac:(lia) Hset).
    cbn [fst snd]. split; [reflexivity|].
    rewrite (getLogsLimit_stored (strconv.FormatInt n)).
    + destruct (Unmarshal_Marshal_int n 0 Hn) as (b & Hb & Hu).
      injection Hb as <-. rewrite Hu. reflexivity.
    + cbn [kv set_kv]. apply lookup_insert_eq.
    + exact Hget.
  - intros p w Hp. split; [apply setLogsLimit_rejected; exact Hp|].
    unfold setLogsLimit. run.
    destruct (strconv.Atoi p) as [n|e]; run; [|reflexivity].
    specialize (Hp n eq_refl).
    destruct (Z.leb_spec n 0) as [_|H]; [reflexivity|lia].
Qed.

Lemma setLogsLimit_then_getLogsLimit_witness :
  (getLogsLimit (setLogsLimit [strconv.Itoa 25] configuredWorld).2).1 = Done (Ok 25) /\
  kv (setLogsLimit ["many"] configuredWorld).2 = kv configuredWorld /\
  kv (setLogsLimit ["-3"] configuredWorld).2 = kv configuredWorld.
Proof.
  destruct setLogsLimit_then_getLogsLimit as [Hset Hrej].
  split; [|split].
  - apply (Hset 25 configuredWorld); [vm_compute; split; [reflexivity|discriminate]|reflexivity|reflexivity].
  - apply (Hrej "many" configuredWorld). intros n H. vm_compute in H. discriminate H.
  - apply (Hrej "-3" configuredWorld). intros n H. vm_compute in H.
    injection H as <-. lia.
Defined.

(** C3 as stated fails for a positive integer beyond the range of [int]:
    with the limit 50 stored, set-logs-limit 9223372036854775808 (2^63)
    is answered with the failure message and a following read still
    yields 50. *)
Lemma setLogsLimit_beyond_int_counterexample :
  let n := 2 ^ 63 in
  let p := strconv.formatBits 20 n "" in
  let r := setLogsLimit [p] configuredWorld in
  0 < n /\ p = "9223372036854775808" /\
  r.1 = Done settingLogsLimitUnsuccessful /\
  kv r.2 = kv configuredWorld /\
  (getLogsLimit r.2).1 = Done (Ok 50) /\
  (getLogsLimit r.2).1 <> Done (Ok n).
Proof.
  cbv zeta. repeat split; try (vm_compute; reflexivity).
  vm_compute. discriminate.
Qed.

End LogsLimit.

(** ** Formatting *)

Section FormattingFacts.

Variable emoji : string -> string.

Lemma writeEntries_ext {A : Type} (f g : A -> string) (l : list A) :
  (forall v, In v l -> f v = g v) ->
  forall i b, writeEntries f l i b = writeEntries g l i b.
Proof.
  induction l as [|v l IH]; intros Hfg i b; [reflexivity|].
  cbn [writeEntries]. rewrite (Hfg v) by (left; reflexivity).
  apply IH. intros v' Hv'. apply Hfg. right. exact Hv'.
Qed.

Lemma append_assoc (a b c : string) : (a +:+ b) +:+ c = a +:+ (b +:+ c).
Proof.
  induction a as [|x a IH]; [reflexivity|].
  change (String x ((a +:+ b) +:+ c) = String x (a +:+ (b +:+ c))).
  f_equal. exact IH.
Qed.

Lemma writeEntries_next {A : Type} (f : A -> string) (l : list A) :
  forall i b,
    writeEntries f l (S i) b =
      match l with
      | [] => b
      | _ => b +:+ newline +:+ String.concat newline (map f l)
      end.
Proof.
  induction l as [|x l IH]; intros i b; [reflexivity|].
  cbn [writeEntries Nat.ltb Nat.leb]. rewrite IH.
  destruct l as [|y l]; cbn [map String.concat].
  - apply append_assoc.
  - rewrite !append_assoc. reflexivity.
Qed.

(** The loop writes one text per entry, joined with newlines. *)
Lemma writeEntries_concat {A : Type} (f : A -> string) (l : list A) :
  writeEntries f l 0 "" = String.concat newline (map f l).
Proof.
  destruct l as [|v l]; [reflexivity|].
  cbn [writeEntries Nat.ltb Nat.leb]. rewrite writeEntries_next.
  destruct l; reflexivity.
Qed.

Lemma UnixString_ext (L1 L2 : time.Location) (sec : Z) :
  time.lookup L1 sec = time.lookup L2 sec ->
  time.UnixString L1 sec = time.UnixString L2 sec.
Proof. intros H. unfold time.UnixString. rewrite H. reflexivity. Qed.

(** C4. With an upstream status text other than "Success", both
    formatters return "Getting logs unsuccessful: " followed by that
    text, whatever the records are; with the status "Success" and no
    record they return "No alerts." and "No notifications.". *)
Theorem format_status_and_empty
    (Local : time.Location)
    (alerts : nagios.AlertList) (notifications : nagios.NotificationList) :
  (nagios.TypeText (nagios.AResult alerts) <> "Success" ->
   formatAlerts Local emoji alerts =
     "Getting logs unsuccessful: " +:+ nagios.TypeText (nagios.AResult alerts)) /\
  (nagios.TypeText (nagios.NResult notifications) <> "Success" ->
   formatNotifications Local notifications =
     "Getting logs unsuccessful: " +:+ nagios.TypeText (nagios.NResult notifications)) /\
  (nagios.TypeText (nagios.AResult alerts) = "Success" ->
   nagios.AData alerts = [] ->
   formatAlerts Local emoji alerts = "No alerts.") /\
  (nagios.TypeText (nagios.NResult notifications) = "Success" ->
   nagios.NData notifications = [] ->
   formatNotifications Local notifications = "No notifications.").
Proof.
  unfold formatAlerts, formatNotifications, resultTypeTextSuccess.
  repeat split.
  - intros H. apply String.eqb_neq in H. rewrite H. reflexivity.
  - intros H. apply String.eqb_neq in H. rewrite H. reflexivity.
  - intros -> ->. reflexivity.
  - intros -> ->. reflexivity.
Qed.

End FormattingFacts.

Lemma format_status_and_empty_witness :
  formatAlerts time.UTC bracketState
    {| nagios.AResult := failureResult; nagios.AData := [sampleAlert] |}
    = "Getting logs unsuccessful: Failure" /\
  formatNotifications time.UTC
    {| nagios.NResult := failureResult; nagios.NData := [sampleNotification] |}
    = "Getting logs unsuccessful: Failure" /\
  formatAlerts time.UTC bracketState
    {| nagios.AResult := successResult; nagios.AData := [] |} = "No alerts." /\
  formatNotifications time.UTC
    {| nagios.NResult := successResult; nagios.NData := [] |} = "No notifications.".
Proof.
  split; [|split; [|split]].
  - apply (format_status_and_empty bracketState time.UTC
             {| nagios.AResult := failureResult; nagios.AData := [sampleAlert] |}
             {| nagios.NResult := failureResult; nagios.NData := [] |}).
    discriminate.
  - apply (format_status_and_empty bracketState time.UTC
             {| nagios.AResult := failureResult; nagios.AData := [] |}
             {| nagios.NResult := failureResult; nagios.NData := [sampleNotification] |}).
    discriminate.
  - apply (format_status_and_empty bracketState time.UTC
             {| nagios.AResult := successResult; nagios.AData := [] |}
             {| nagios.NResult := successResult; nagios.NData := [] |});
      reflexivity.
  - apply (format_status_and_empty bracketState time.UTC
             {| nagios.AResult := successResult; nagios.AData := [] |}
             {| nagios.NResult := successResult; nagios.NData := [] |});
      reflexivity.
Defined.

(** Time zones that agree at every instant give the same texts. *)
Lemma formatters_respect_zone
    (emoji : string -> string) (Local1 Local2 : time.Location)
    (alerts : nagios.AlertList) (notifications : nagios.NotificationList) :
  (forall sec, time.lookup Local1 sec = time.lookup Local2 sec) ->
  formatAlerts Local1 emoji alerts = formatAlerts Local2 emoji alerts /\
  formatNotifications Local1 notifications = formatNotifications Local2 notifications.
Proof.
  intros Hzone.
  assert (Hts : forall t, formatNagiosTimestamp Local1 t = formatNagiosTimestamp Local2 t).
  { intros t. apply UnixString_ext, Hzone. }
  unfold formatAlerts, formatNotifications. split.
  - destruct (negb _); [reflexivity|]. destruct (_ =? _)%nat; [reflexivity|].
    apply writeEntries_ext. intros e _. unfold formatAlertListEntry.
    rewrite Hts. reflexivity.
  - destruct (negb _); [reflexivity|]. destruct (_ =? _)%nat; [reflexivity|].
    apply writeEntries_ext. intros e _. unfold formatNotificationListEntry.
    rewrite Hts. reflexivity.
Qed.

Example formatAlerts_sample :
  formatAlerts time.UTC bracketState
    {| nagios.AResult := successResult; nagios.AData := [sampleAlert; sampleHostAlert] |}
  = "<critical> [2023-11-14 22:13:20 +0000 UTC] service: web1 | HTTP | hard | critical | timed out"
      +:+ newline +:+
    "<down> [2023-11-14 22:13:20 +0000 UTC] host: db1 |  | soft | down | unreachable".
Proof. vm_compute. reflexivity. Qed.

Example formatNotifications_sample :
  formatNotifications time.UTC
    {| nagios.NResult := successResult; nagios.NData := [sampleNotification] |}
  = "[2023-11-14 22:13:20 +0000 UTC] service: web1 | HTTP | ops | critical | notify-by-email | timed out".
Proof. vm_compute. reflexivity. Qed.

(** ** Timestamps *)

(** C8. An upstream timestamp [t] in milliseconds is rendered as the
    instant of Unix time [t / 1000] seconds, the quotient being Go's
    integer division (toward zero); every millisecond of a second at or
    after the epoch renders as that second, and 1700000000000 ms renders
    as Unix time 1700000000 s does, which in UTC reads
    2023-11-14 22:13:20 +0000 UTC. *)
Theorem formatNagiosTimestamp_seconds (Local : time.Location) :
  (forall t, formatNagiosTimestamp Local t = time.UnixString Local (Z.quot t 1000)) /\
  (forall sec ms, 0 <= sec -> 0 <= ms < 1000 ->
     formatNagiosTimestamp Local (sec * 1000 + ms) = time.UnixString Local sec) /\
  formatNagiosTimestamp Local 1700000000000 = time.UnixString Local 1700000000 /\
  formatNagiosTimestamp time.UTC 1700000000000 = "2023-11-14 22:13:20 +0000 UTC".
Proof.
  split; [|split; [|split]].
  - intros t. reflexivity.
  - intros sec ms Hsec Hms. unfold formatNagiosTimestamp. f_equal.
    rewrite Z.quot_div_nonneg by lia.
    symmetry. apply Z.div_unique with (r := ms); lia.
  - reflexivity.
  - vm_compute. reflexivity.
Qed.

Lemma formatNagiosTimestamp_seconds_witness :
  formatNagiosTimestamp time.UTC (1700000000 * 1000 + 999)
  = time.UnixString time.UTC 1700000000.
Proof.
  apply (formatNagiosTimestamp_seconds time.UTC); lia.
Defined.

(** ** Filter parameters of get-log *)

(** C5. The filter parameters after the log kind: none gives no filter;
    "host" or "service" alone gives the message asking for the name or the
    description; "host" h sets only the host filter and "service" s only
    the service filter; any other first parameter is reported as unknown;
    in no case are both filters set. *)
Theorem getLogsSpecific_cases :
  getLogsSpecific ["host"] = ("", "", "You must supply host name.", false) /\
  getLogsSpecific ["service"] = ("", "", "You must supply service description.", false) /\
  getLogsSpecific ["bogus"] = ("", "", "Unknown parameter (bogus).", false) /\
  getLogsSpecific [] = ("", "", "", true) /\
  (forall h, getLogsSpecific ["host"; h] = (h, "", "", true)) /\
  (forall s, getLogsSpecific ["service"; s] = ("", s, "", true)) /\
  (forall p0 rest, p0 <> "host" -> p0 <> "service" ->
     getLogsSpecific (p0 :: rest) = ("", "", "Unknown parameter (" +:+ p0 +:+ ").", false)) /\
  (forall parameters,
     (getLogsSpecific parameters).1.1.1 = "" \/ (getLogsSpecific parameters).1.1.2 = "").
Proof.
  repeat split; try reflexivity.
  - intros p0 rest Hh Hs. unfold getLogsSpecific.
    apply String.eqb_neq in Hh, Hs. rewrite Hh, Hs. reflexivity.
  - intros parameters. unfold getLogsSpecific.
    destruct parameters as [|p0 rest]; [left; reflexivity|].
    destruct (p0 =? "host")%string; [destruct rest; right; reflexivity|].
    destruct (p0 =? "service")%string; [destruct rest; left; reflexivity|].
    left; reflexivity.
Qed.

Lemma getLogsSpecific_cases_witness :
  getLogsSpecific ["hosts"; "web1"] = ("", "", "Unknown parameter (hosts).", false).
Proof.
  apply getLogsSpecific_cases; discriminate.
Defined.

(** ** get-log *)

Section GetLogs.

Variable Local : time.Location.
Variable emoji : string -> string.

Lemma getLogsLimit_run (w : World) :
  exists r, getLogsLimit w = (Done r, record (EvKV (KVGetCall logsLimitKey)) w).
Proof.
  unfold getLogsLimit, KVGet, mbind, M_bind, mret, M_ret.
  cbn [kvFails record set_trace kv].
  destruct (kvFails w _); [eexists; reflexivity|].
  destruct (json.Unmarshal_int _ 0); eexists; reflexivity.
Qed.

Lemma getLogsStartTime_run (w : World) :
  exists r, getLogsStartTime w = (Done r, record (EvKV (KVGetCall logsStartTimeKey)) w).
Proof.
  unfold getLogsStartTime, KVGet, mbind, M_bind, mret, M_ret.
  cbn [kvFails record set_trace kv].
  destruct (kvFails w _); [eexists; reflexivity|].
  destruct (json.Unmarshal_int _ 0); eexists; reflexivity.
Qed.

Lemma user_error_is_not_backend_failure (parameters : list string) :
  (getLogsSpecific parameters).2 = false ->
  (getLogsSpecific parameters).1.2 <> gettingLogsUnsuccessful.
Proof.
  unfold getLogsSpecific.
  destruct parameters as [|p0 rest]; [discriminate|].
  destruct (p0 =? "host")%string; [destruct rest; discriminate|].
  destruct (p0 =? "service")%string; [destruct rest; discriminate|].
  intros _. discriminate.
Qed.

Ltac extends_trace :=
  unfold LogError, emit, mret, M_ret;
  cbn [fst snd trace record set_trace];
  repeat rewrite <- app_assoc; cbn [app];
  eexists; reflexivity.

Lemma getLogs_trace (p0 : string) (rest : list string) (w : World) :
  exists evs, trace (getLogs Local emoji (p0 :: rest) w).2
              = (trace w ++ EvKV (KVGetCall logsLimitKey) :: evs)%list.
Proof.
  unfold getLogs, mbind, M_bind.
  destruct (getLogsLimit_run w) as [rc ->].
  destruct rc as [c|e]; [|extends_trace].
  destruct (getLogsSpecific rest) as [[[hostName serviceDescription] message] ok].
  destruct ok; cbn [negb]; [|extends_trace].
  destruct (getLogsStartTime_run (record (EvKV (KVGetCall logsLimitKey)) w)) as [rd ->].
  destruct rd as [d|e]; [|extends_trace].
  unfold Now, QueryAlerts, QueryNotifications, LogError, emit, mret, M_ret.
  cbn [clock record set_trace client].
  destruct (p0 =? "alerts")%string.
  { destruct (nagios.QueryAlerts _ _); extends_trace. }
  destruct (p0 =? "notifications")%string.
  { destruct (nagios.QueryNotifications _ _); extends_trace. }
  extends_trace.
Qed.

(** C9. A get-log call with at least one parameter first reads the logs
    limit from the store, whatever the other parameters are. When that
    read or its decoding fails, the call returns "Getting logs
    unsuccessful" after exactly that read and one log entry, and so does
    not return the message that malformed filter parameters would get. *)
Theorem getLogs_reads_limit_before_filters (p0 : string) (rest : list string) (w : World) :
  (exists evs, trace (getLogs Local emoji (p0 :: rest) w).2
               = (trace w ++ EvKV (KVGetCall logsLimitKey) :: evs)%list) /\
  (forall e, (getLogsLimit w).1 = Done (Err e) ->
     (getLogs Local emoji (p0 :: rest) w).1 = Done gettingLogsUnsuccessful /\
     trace (getLogs Local emoji (p0 :: rest) w).2
       = (trace w ++ [EvKV (KVGetCall logsLimitKey); EvLogError "getLogsLimit" e])%list /\
     ((getLogsSpecific rest).2 = false ->
      (getLogs Local emoji (p0 :: rest) w).1 <> Done (getLogsSpecific rest).1.2)).
Proof.
  split; [apply getLogs_trace|].
  intros e He. unfold getLogs, mbind, M_bind.
  destruct (getLogsLimit_run w) as [rc Hrc]. rewrite Hrc in *.
  cbn [fst] in He. injection He as ->.
  unfold LogError, emit, mret, M_ret. cbn [fst snd trace record set_trace].
  split; [reflexivity|]. split; [rewrite <- app_assoc; reflexivity|].
  intros Hbad Heq. injection Heq as Heq.
  apply (user_error_is_not_backend_failure rest Hbad). symmetry. exact Heq.
Qed.

End GetLogs.

Lemma getLogs_reads_limit_before_filters_witness :
  (getLogs time.UTC bracketState ["alerts"; "host"] freshWorld).1
    = Done gettingLogsUnsuccessful /\
  (getLogs time.UTC bracketState ["alerts"; "host"] configuredWorld).1
    = Done "You must supply host name.".
Proof.
  split; [|vm_compute; reflexivity].
  destruct (getLogs_reads_limit_before_filters time.UTC bracketState "alerts" ["host"]
              freshWorld) as [_ Hfail].
  apply (Hfail (Errorf "json.Unmarshal" ErrJSON)).
  vm_compute. reflexivity.
Defined.

Example getLogs_sample :
  (getLogs time.UTC bracketState ["alerts"] configuredWorld).1 = Done "No alerts." /\
  (getLogs time.UTC bracketState ["notifications"; "service"; "HTTP"] configuredWorld).1
    = Done "No notifications." /\
  (getLogs time.UTC bracketState ["alerts"; "host"; "web1"] brokenWorld).1
    = Done gettingLogsUnsuccessful /\
  (getLogs time.UTC bracketState ["events"] configuredWorld).1
    = Done "Unknown parameter (events)." /\
  trace (getLogs time.UTC bracketState ["alerts"; "host"; "web1"] configuredWorld).2
    = [EvKV (KVGetCall logsLimitKey); EvKV (KVGetCall logsStartTimeKey);
       EvQuery (nagios.AlertListRequest
                  {| nagios.Enumerate := true; nagios.Count := 50;
                     nagios.ReqHostName := "web1"; nagios.ServiceDescription := "";
                     nagios.StartTime := 1700000000 - 86400;
                     nagios.EndTime := 1700000000 |})].
Proof. repeat split; vm_compute; reflexivity. Qed.

(** ** subscribe and unsubscribe *)

Section Subscriptions.

Variable jsonString : string -> string.

Lemma subscribe_report_run (channelID : string) (w : World) :
  subscribe jsonString channelID ["report"] w
  = setReportChannel jsonString channelID (reportStarted channelID w).
Proof. reflexivity. Qed.

Lemma setReportChannel_run (channelID : string) (w : World) :
  let write := KVSetCall reportChannelKey (jsonString channelID) in
  setReportChannel jsonString channelID w =
    if kvFails w write then
      (Done settingReportChannelUnsuccessful,
       record (EvLogError "KVSet" AppError) (record (EvKV write) w))
    else
      (Done "Subscribed to system monitoring report successfully.",
       set_kv (<[reportChannelKey := jsonString channelID]> (kv w))
         (record (EvKV write) w)).
Proof.
  cbv zeta. unfold setReportChannel, Marshal_string, KVSet, mbind, M_bind.
  cbn [kvFails record set_trace]. destruct (kvFails w _); reflexivity.
Qed.

Lemma setReportChannel_frame (channelID : string) (w : World) :
  let r := setReportChannel jsonString channelID w in
  (exists msg, r.1 = Done msg) /\
  subscriptionStop r.2 = subscriptionStop w /\
  chans r.2 = chans w /\
  goroutines r.2 = goroutines w /\
  exists evs, trace r.2
              = (trace w ++ EvKV (KVSetCall reportChannelKey (jsonString channelID)) :: evs)%list /\
              forall c v, EvSend c v ∉ evs.
Proof.
  cbv zeta. rewrite setReportChannel_run. cbv zeta.
  destruct (kvFails w _); cbn [fst snd subscriptionStop chans goroutines trace
                                 record set_trace set_kv];
    (split; [eexists; reflexivity|]); repeat (split; [reflexivity|]).
  - exists [EvLogError "KVSet" AppError]. split; [rewrite <- app_assoc; reflexivity|].
    intros c v H. apply list_elem_of_singleton in H. discriminate H.
  - exists []. split; [reflexivity|]. intros c v H. inversion H.
Qed.

(** C1. With a subscription active (the stop field holds an existing
    channel), [subscribe report] returns a message, stores a newly made
    empty channel of capacity 1 in the stop field, leaves the previous
    channel with the content it had, performs no send on any channel,
    and keeps every goroutine that was running. *)
Theorem subscribe_report_replaces_without_cancel
    (channelID : string) (w : World) (old : Chan) (ch : chanState) :
  subscriptionStop w = Some old ->
  chans w !! old = Some ch ->
  let r := subscribe jsonString channelID ["report"] w in
  let fresh := List.length (chans w) in
  (exists msg, r.1 = Done msg) /\
  subscriptionStop r.2 = Some fresh /\
  fresh <> old /\
  chans r.2 !! fresh = Some {| cap := 1; buf := [] |} /\
  chans r.2 !! old = Some ch /\
  (exists evs, trace r.2 = (trace w ++ evs)%list /\ forall c v, EvSend c v ∉ evs) /\
  (forall g, g ∈ goroutines w -> g ∈ goroutines r.2).
Proof.
  intros Hold Hch. cbv zeta. rewrite subscribe_report_run.
  destruct (setReportChannel_frame channelID (reportStarted channelID w))
    as (Hmsg & Hstop & Hchans & Hgo & evs & Htrace & Hsend).
  cbv zeta in *. rewrite Hstop, Hchans, Hgo, Htrace.
  pose proof (lookup_lt_Some _ _ _ Hch) as Hlt.
  unfold reportStarted.
  cbn [subscriptionStop chans goroutines trace record set_trace set_subscriptionStop
         set_goroutines set_chans].
  split; [exact Hmsg|]. split; [reflexivity|]. split; [lia|].
  split; [apply list_lookup_middle; reflexivity|].
  split; [rewrite lookup_app_l by exact Hlt; exact Hch|].
  split.
  - eexists. split; [repeat rewrite <- app_assoc; reflexivity|].
    intros c v H. cbn [app] in H.
    apply elem_of_cons in H as [H|H]; [discriminate H|].
    apply elem_of_cons in H as [H|H]; [discriminate H|].
    apply elem_of_cons in H as [H|H]; [discriminate H|].
    exact (Hsend c v H).
  - intros g Hg. apply elem_of_app. left. exact Hg.
Qed.

(** C10. Each [subscribe report] makes the channel, starts the report
    task and stores the channel in the stop field before it calls the
    store: it continues as [setReportChannel] from a world that already
    has all three and the old settings. When the store then refuses the
    write, the failure message is returned, the settings are as before,
    and the new task and the new stop channel remain. *)
Theorem subscribe_report_starts_before_persisting (channelID : string) (w : World) :
  let r := subscribe jsonString channelID ["report"] w in
  let fresh := List.length (chans w) in
  let task := addMonitoringReport channelID fresh in
  let write := KVSetCall reportChannelKey (jsonString channelID) in
  (r = setReportChannel jsonString channelID (reportStarted channelID w) /\
   subscriptionStop (reportStarted channelID w) = Some fresh /\
   goroutines (reportStarted channelID w) = (goroutines w ++ [task])%list /\
   kv (reportStarted channelID w) = kv w) /\
  (exists evs, trace r.2
               = (trace w ++ EvMakeChan fresh :: EvGo task :: EvKV write :: evs)%list) /\
  (kvFails w write = true ->
   r.1 = Done settingReportChannelUnsuccessful /\
   kv r.2 = kv w /\
   subscriptionStop r.2 = Some fresh /\
   chans w !! fresh = None /\
   chans r.2 = (chans w ++ [{| cap := 1; buf := [] |}])%list /\
   goroutines r.2 = (goroutines w ++ [task])%list).
Proof.
  cbv zeta. rewrite subscribe_report_run, setReportChannel_run. cbv zeta.
  split; [repeat split|]. split.
  - unfold reportStarted.
    destruct (kvFails _ _);
      cbn [fst snd trace record set_trace set_kv set_subscriptionStop
             set_goroutines set_chans];
      repeat rewrite <- app_assoc; cbn [app]; eexists; reflexivity.
  - intros Hfail.
    change (kvFails (reportStarted channelID w)) with (kvFails w).
    rewrite Hfail. repeat split.
    apply lookup_ge_None. lia.
Qed.

(** Without a stored channel the send blocks and nothing else happens. *)
Lemma unsubscribe_report_nil (w : World) :
  subscriptionStop w = None -> unsubscribe ["report"] w = (Blocked, w).
Proof.
  intros Hnil. unfold unsubscribe, loadSubscriptionStop, send, mbind, M_bind.
  cbn [List.length Nat.eqb negb hd String.eqb Ascii.eqb Bool.eqb].
  rewrite Hnil. reflexivity.
Qed.

(** With a stored channel that has room, one value is sent and the
    persisted report channel is deleted. *)
Lemma unsubscribe_report_active (w : World) (c : Chan) (n : nat) :
  subscriptionStop w = Some c ->
  chans w !! c = Some {| cap := S n; buf := [] |} ->
  kvFails w (KVDeleteCall reportChannelKey) = false ->
  let r := unsubscribe ["report"] w in
  r.1 = Done "Unsubscribed successfully." /\
  kv r.2 = delete reportChannelKey (kv w) /\
  chans r.2 !! c = Some {| cap := S n; buf := [true] |} /\
  trace r.2 = (trace w ++ [EvSend c true; EvKV (KVDeleteCall reportChannelKey)])%list.
Proof.
  intros Hc Hch Hdel. cbv zeta.
  unfold unsubscribe, loadSubscriptionStop, send, KVDelete, mbind, M_bind.
  cbn [List.length Nat.eqb negb hd String.eqb Ascii.eqb Bool.eqb].
  rewrite Hc, Hch.
  cbn [buf cap List.length Nat.ltb Nat.leb kvFails record set_trace set_chans].
  rewrite Hdel.
  cbn [fst snd kv chans trace set_kv set_trace set_chans app].
  split; [reflexivity|]. split; [reflexivity|].
  split; [apply list_lookup_insert_eq; eapply lookup_lt_Some; exact Hch|].
  unfold mret, M_ret. cbn [snd trace set_kv record set_trace set_chans].
  rewrite <- app_assoc. reflexivity.
Qed.

End Subscriptions.

Lemma subscribe_report_replaces_without_cancel_witness :
  subscriptionStop subscribedWorld = Some 0%nat /\
  subscriptionStop (subscribe quoted "dev" ["report"] subscribedWorld).2 = Some 1%nat /\
  chans (subscribe quoted "dev" ["report"] subscribedWorld).2 !! 0%nat
    = Some {| cap := 1; buf := [] |}.
Proof.
  split; [reflexivity|].
  pose proof (subscribe_report_replaces_without_cancel quoted "dev" subscribedWorld
                0%nat {| cap := 1; buf := [] |} eq_refl eq_refl) as H.
  cbv zeta in H. destruct H as (_ & Hstop & _ & _ & Hold & _).
  split; [exact Hstop|exact Hold].
Defined.

Lemma subscribe_report_starts_before_persisting_witness :
  (subscribe quoted "ops" ["report"] brokenWorld).1
    = Done settingReportChannelUnsuccessful /\
  subscriptionStop (subscribe quoted "ops" ["report"] brokenWorld).2 = Some 0%nat /\
  goroutines (subscribe quoted "ops" ["report"] brokenWorld).2
    = [addMonitoringReport "ops" 0%nat].
Proof.
  pose proof (subscribe_report_starts_before_persisting quoted "ops" brokenWorld) as H.
  cbv zeta in H. destruct H as (_ & _ & Hfail).
  destruct (Hfail eq_refl) as (Hmsg & _ & Hstop & _ & _ & Hgo).
  split; [exact Hmsg|]. split; [exact Hstop|exact Hgo].
Defined.

(** C2, evaluated where it fails. On a plugin that never subscribed (the
    stop field is nil) and whose backend works, [unsubscribe report] does
    not return: the send blocks, no value is sent, the store is not
    called and the world is as before. *)
Theorem unsubscribe_report_without_subscription_blocks :
  subscriptionStop configuredWorld = None /\
  kvFails configuredWorld (KVDeleteCall reportChannelKey) = false /\
  unsubscribe ["report"] configuredWorld = (Blocked, configuredWorld).
Proof. repeat split. Qed.

Example subscribe_then_unsubscribe :
  let r := unsubscribe ["report"] subscribedWorld in
  kv subscribedWorld !! reportChannelKey = Some (quoted "ops") /\
  r.1 = Done "Unsubscribed successfully." /\
  kv r.2 !! reportChannelKey = None /\
  subscriptionStop r.2 = Some 0%nat /\
  (unsubscribe ["report"] r.2).1 = Blocked.
Proof. cbv zeta. repeat split; vm_compute; reflexivity. Qed.

(** ** Reading a setting back *)

Section SettingsReadBack.

Import strconv_facts json_facts.

Ltac run_get :=
  unfold KVGet, mbind, M_bind, mret, M_ret;
  cbn [kvFails record set_trace kv set_kv fst snd].

Lemma Unmarshal_FormatInt (n : Z) :
  0 < n <= maxInt64 -> json.Unmarshal_int (strconv.FormatInt n) 0 = Ok n.
Proof.
  intros Hn. destruct (Unmarshal_Marshal_int n 0 Hn) as (b & Hb & Hu).
  injection Hb as <-. exact Hu.
Qed.

Lemma setter_accepts (p : string) (n : Z) :
  strconv.ParseInt p = Ok n -> 0 < n -> 0 < n <= maxInt64.
Proof.
  intros Hp Hn. pose proof (ParseInt_range p n Hp) as [_ H]. split; assumption.
Qed.

Lemma wrap64_small (z : Z) : minInt64 <= z <= maxInt64 -> wrap64 z = z.
Proof.
  unfold minInt64, maxInt64, wrap64.
  change (2 ^ 63) with 9223372036854775808.
  change (2 ^ 64) with 18446744073709551616.
  intros H. rewrite Z.mod_small by lia. lia.
Qed.

Lemma wrap64_range (z : Z) : minInt64 <= wrap64 z <= maxInt64.
Proof.
  unfold minInt64, maxInt64, wrap64.
  change (2 ^ 63) with 9223372036854775808.
  change (2 ^ 64) with 18446744073709551616.
  pose proof (Z.mod_pos_bound (z + 9223372036854775808) 18446744073709551616).
  lia.
Qed.

(** Any accepted spelling of a positive limit (a sign, leading zeros)
    is stored as the plain decimal text and reads back as the number. *)
Theorem setLogsLimit_any_spelling_reads_back (p : string) (n : Z) (w : World) :
  strconv.Atoi p = Ok n -> 0 < n ->
  kvFails w (KVSetCall logsLimitKey (strconv.FormatInt n)) = false ->
  kvFails w (KVGetCall logsLimitKey) = false ->
  (setLogsLimit [p] w).1 = Done "Limit set successfully." /\
  kv (setLogsLimit [p] w).2 !! logsLimitKey = Some (strconv.FormatInt n) /\
  (getLogsLimit (setLogsLimit [p] w).2).1 = Done (Ok n).
Proof.
  intros Hp Hn Hset Hget.
  pose proof (setter_accepts p n Hp Hn) as Hr.
  unfold setLogsLimit, getLogsLimit, json.Marshal_int, KVSet.
  cbn [List.length Nat.eqb negb hd]. rewrite Hp.
  destruct (Z.leb_spec n 0) as [H|_]; [lia|]. run_get. rewrite Hset.
  run_get. rewrite Hget, lookup_insert_eq.
  change (bytes (Some (strconv.FormatInt n))) with (strconv.FormatInt n).
  rewrite (Unmarshal_FormatInt n Hr). repeat split.
Qed.

(** set-logs-start-time followed by a read: the read gives the duration
    [n s] as [int64] nanoseconds, which is [n] seconds exactly up to
    9223372036 seconds and a wrapped value beyond. *)
Theorem setLogsStartTime_then_getLogsStartTime (p : string) (n : Z) (w : World) :
  strconv.ParseInt p = Ok n -> 0 < n ->
  kvFails w (KVSetCall logsStartTimeKey (strconv.FormatInt n)) = false ->
  kvFails w (KVGetCall logsStartTimeKey) = false ->
  (setLogsStartTime [p] w).1 = Done "Start time set successfully." /\
  (getLogsStartTime (setLogsStartTime [p] w).2).1
    = Done (Ok (wrap64 (n * time.Second))) /\
  (n <= maxSeconds -> wrap64 (n * time.Second) = n * time.Second) /\
  (maxSeconds < n -> wrap64 (n * time.Second) <> n * time.Second).
Proof.
  intros Hp Hn Hset Hget.
  pose proof (setter_accepts p n Hp Hn) as Hr.
  split; [|split; [|split]].
  - unfold setLogsStartTime, json.Marshal_int, KVSet.
    cbn [List.length Nat.eqb negb hd]. rewrite Hp.
    destruct (Z.leb_spec n 0) as [H|_]; [lia|]. run_get. rewrite Hset. reflexivity.
  - unfold setLogsStartTime, getLogsStartTime, json.Marshal_int, KVSet.
    cbn [List.length Nat.eqb negb hd]. rewrite Hp.
    destruct (Z.leb_spec n 0) as [H|_]; [lia|]. run_get. rewrite Hset.
    run_get. rewrite Hget, lookup_insert_eq.
    change (bytes (Some (strconv.FormatInt n))) with (strconv.FormatInt n).
    rewrite (Unmarshal_FormatInt n Hr). reflexivity.
  - intros Hle. apply wrap64_small.
    unfold minInt64, maxInt64, maxSeconds, time.Second in *.
    change (2 ^ 63) with 9223372036854775808. lia.
  - intros Hgt Heq. pose proof (wrap64_range (n * time.Second)) as Hw.
    rewrite Heq in Hw.
    unfold minInt64, maxInt64, maxSeconds, time.Second in *.
    change (2 ^ 63) with 9223372036854775808 in *. lia.
Qed.

(** set-report-frequency followed by a read: the read gives the duration
    of [n] minutes as [int64] nanoseconds, exact up to 153722867 minutes
    and a wrapped value beyond. *)
Theorem setReportFrequency_then_getReportFrequency (p : string) (n : Z) (w : World) :
  strconv.Atoi p = Ok n -> 0 < n ->
  kvFails w (KVSetCall reportFrequencyKey (strconv.FormatInt n)) = false ->
  kvFails w (KVGetCall reportFrequencyKey) = false ->
  (setReportFrequency [p] w).1 = Done "Report frequency set successfully." /\
  (getReportFrequency (setReportFrequency [p] w).2).1
    = Done (Ok (wrap64 (n * time.Minute))) /\
  (n <= maxMinutes -> wrap64 (n * time.Minute) = n * time.Minute) /\
  (maxMinutes < n -> wrap64 (n * time.Minute) <> n * time.Minute).
Proof.
  intros Hp Hn Hset Hget.
  pose proof (setter_accepts p n Hp Hn) as Hr.
  split; [|split; [|split]].
  - unfold setReportFrequency, json.Marshal_int, KVSet.
    cbn [List.length Nat.eqb negb hd]. rewrite Hp.
    destruct (Z.leb_spec n 0) as [H|_]; [lia|]. run_get. rewrite Hset. reflexivity.
  - unfold setReportFrequency, getReportFrequency, json.Marshal_int, KVSet.
    cbn [List.length Nat.eqb negb hd]. rewrite Hp.
    destruct (Z.leb_spec n 0) as [H|_]; [lia|]. run_get. rewrite Hset.
    run_get. rewrite Hget, lookup_insert_eq.
    change (bytes (Some (strconv.FormatInt n))) with (strconv.FormatInt n).
    rewrite (Unmarshal_FormatInt n Hr). reflexivity.
  - intros Hle. apply wrap64_small.
    unfold minInt64, maxInt64, maxMinutes, time.Minute, time.Second in *.
    change (2 ^ 63) with 9223372036854775808. lia.
  - intros Hgt Heq. pose proof (wrap64_range (n * time.Minute)) as Hw.
    rewrite Heq in Hw.
    unfold minInt64, maxInt64, maxMinutes, time.Minute, time.Second in *.
    change (2 ^ 63) with 9223372036854775808 in *. lia.
Qed.

(** A setting that was never stored does not read as a default: with a
    working backend each of the three readers returns an error. *)
Theorem absent_setting_is_an_error (w : World) :
  (kv w !! logsLimitKey = None -> kvFails w (KVGetCall logsLimitKey) = false ->
   (getLogsLimit w).1 = Done (Err (Errorf "json.Unmarshal" ErrJSON))) /\
  (kv w !! logsStartTimeKey = None -> kvFails w (KVGetCall logsStartTimeKey) = false ->
   (getLogsStartTime w).1 = Done (Err (Errorf "json.Unmarshal" ErrJSON))) /\
  (kv w !! reportFrequencyKey = None -> kvFails w (KVGetCall reportFrequencyKey) = false ->
   (getReportFrequency w).1 = Done (Err (Errorf "json.Unmarshal" ErrJSON))).
Proof.
  unfold getLogsLimit, getLogsStartTime, getReportFrequency.
  repeat split; intros Hnone Hget; run_get; rewrite Hget, Hnone; reflexivity.
Qed.

End SettingsReadBack.

Lemma setLogsLimit_any_spelling_reads_back_witness :
  (getLogsLimit (setLogsLimit ["+007"] configuredWorld).2).1 = Done (Ok 7).
Proof.
  apply (setLogsLimit_any_spelling_reads_back "+007" 7 configuredWorld);
    [vm_compute; reflexivity|lia|reflexivity|reflexivity].
Defined.

Lemma setLogsStartTime_then_getLogsStartTime_witness :
  (getLogsStartTime (setLogsStartTime ["3600"] configuredWorld).2).1
    = Done (Ok (wrap64 (3600 * time.Second))) /\
  (getLogsStartTime (setLogsStartTime ["9223372037"] configuredWorld).2).1
    = Done (Ok (wrap64 (9223372037 * time.Second))) /\
  wrap64 (9223372037 * time.Second) <> 9223372037 * time.Second.
Proof.
  split; [|split].
  - apply (setLogsStartTime_then_getLogsStartTime "3600" 3600 configuredWorld);
      [vm_compute; reflexivity|lia|reflexivity|reflexivity].
  - apply (setLogsStartTime_then_getLogsStartTime "9223372037" 9223372037 configuredWorld);
      [vm_compute; reflexivity|lia|reflexivity|reflexivity].
  - apply (setLogsStartTime_then_getLogsStartTime "9223372037" 9223372037 configuredWorld);
      [vm_compute; reflexivity|lia|reflexivity|reflexivity|unfold maxSeconds; lia].
Defined.

Lemma setReportFrequency_then_getReportFrequency_witness :
  (getReportFrequency (setReportFrequency ["15"] configuredWorld).2).1
    = Done (Ok (wrap64 (15 * time.Minute))).
Proof.
  apply (setReportFrequency_then_getReportFrequency "15" 15 configuredWorld);
    [vm_compute; reflexivity|lia|reflexivity|reflexivity].
Defined.

Lemma absent_setting_is_an_error_witness :
  (getLogsLimit freshWorld).1 = Done (Err (Errorf "json.Unmarshal" ErrJSON)).
Proof.
  apply (absent_setting_is_an_error freshWorld); reflexivity.
Defined.

(** ** get-log, whole runs *)

Section GetLogsRuns.

Variable Local : time.Location.
Variable emoji : string -> string.

Ltac run_logs :=
  unfold Now, QueryAlerts, QueryNotifications, LogError, emit, mret, M_ret;
  cbn [clock record set_trace client fst snd kv kvFails subscriptionStop chans
         goroutines trace negb].

Ltac only_trace :=
  run_logs; unfold record, set_trace;
  cbn [kv kvFails client subscriptionStop chans goroutines clock trace snd];
  repeat rewrite <- app_assoc; cbn [app];
  eexists; split; [reflexivity|];
  repeat (apply Forall_cons; split; [reflexivity|]); apply Forall_nil_2.

Lemma getLogs_only_reads_run (parameters : list string) (w : World) :
  (exists msg, (getLogs Local emoji parameters w).1 = Done msg) /\
  exists evs, (getLogs Local emoji parameters w).2 = set_trace (trace w ++ evs) w /\
              Forall (fun e => readOnlyEvent e = true) evs.
Proof.
  destruct parameters as [|p0 rest].
  { split; [eexists; reflexivity|]. exists []. split; [|apply Forall_nil_2].
    rewrite app_nil_r. destruct w; reflexivity. }
  unfold getLogs, mbind, M_bind.
  destruct (getLogsLimit_run w) as [rc ->].
  destruct rc as [c|e]; [|split; [eexists; reflexivity|only_trace]].
  destruct (getLogsSpecific rest) as [[[hostName serviceDescription] message] ok].
  destruct ok; cbn [negb]; [|split; [eexists; reflexivity|only_trace]].
  destruct (getLogsStartTime_run (record (EvKV (KVGetCall logsLimitKey)) w)) as [rd ->].
  destruct rd as [d|e]; [|split; [eexists; reflexivity|only_trace]].
  run_logs.
  destruct (p0 =? "alerts")%string.
  { destruct (nagios.QueryAlerts _ _); (split; [eexists; reflexivity|only_trace]). }
  destruct (p0 =? "notifications")%string.
  { destruct (nagios.QueryNotifications _ _); (split; [eexists; reflexivity|only_trace]). }
  split; [eexists; reflexivity|only_trace].
Qed.

(** get-log always returns, and it changes nothing but the trace, to
    which it adds only store reads, log entries and queries: the store,
    the stop field, the channels and the goroutines are as before. *)
Theorem getLogs_only_reads (parameters : list string) (w : World) :
  (exists msg, (getLogs Local emoji parameters w).1 = Done msg) /\
  exists evs, (getLogs Local emoji parameters w).2 = set_trace (trace w ++ evs) w /\
              Forall (fun e => readOnlyEvent e = true) evs.
Proof. intros. apply getLogs_only_reads_run; assumption. Qed.

Lemma lookback_window (now s : Z) :
  - maxSeconds <= s <= maxSeconds ->
  time.Unix (time.Add now (wrap64 (- wrap64 (s * time.Second)))) = time.Unix now - s.
Proof.
  intros Hs.
  assert (Hr : minInt64 <= s * time.Second <= maxInt64 /\
               minInt64 <= - (s * time.Second) <= maxInt64).
  { unfold minInt64, maxInt64, maxSeconds, time.Second in *.
    change (2 ^ 63) with 9223372036854775808. lia. }
  rewrite (wrap64_small (s * time.Second)) by apply Hr.
  rewrite (wrap64_small (- (s * time.Second))) by apply Hr.
  unfold time.Unix, time.Add.
  replace (now + - (s * time.Second)) with (now + (- s) * time.Second) by lia.
  rewrite Z.div_add by (unfold time.Second; lia). lia.
Qed.

Lemma getLogsLimit_decoded (w : World) (b : string) (c : Z) :
  kvFails w (KVGetCall logsLimitKey) = false ->
  kv w !! logsLimitKey = Some b -> json.Unmarshal_int b 0 = Ok c ->
  getLogsLimit w = (Done (Ok c), record (EvKV (KVGetCall logsLimitKey)) w).
Proof.
  intros Hget Hb Hc. unfold getLogsLimit, KVGet, mbind, M_bind, mret, M_ret.
  cbn [kvFails record set_trace kv]. rewrite Hget, Hb.
  change (bytes (Some b)) with b. rewrite Hc. reflexivity.
Qed.

Lemma getLogsStartTime_decoded (w : World) (b : string) (s : Z) :
  kvFails w (KVGetCall logsStartTimeKey) = false ->
  kv w !! logsStartTimeKey = Some b -> json.Unmarshal_int b 0 = Ok s ->
  getLogsStartTime w
  = (Done (Ok (wrap64 (s * time.Second))), record (EvKV (KVGetCall logsStartTimeKey)) w).
Proof.
  intros Hget Hb Hs. unfold getLogsStartTime, KVGet, mbind, M_bind, mret, M_ret.
  cbn [kvFails record set_trace kv]. rewrite Hget, Hb.
  change (bytes (Some b)) with b. rewrite Hs. reflexivity.
Qed.

(** With the limit [c] and a lookback of [s] seconds stored (a duration
    that fits [int64]) and well-formed filters, get-log alerts and get-log
    notifications send one request with enumeration on, count [c], the
    filters, and the window from [now - s] to [now] in Unix seconds; the
    answer is formatted, a query error gives the failure message. *)
Theorem getLogs_query (kind : string) (rest : list string) (w : World)
    (bl bs hostName serviceDescription message : string) (c s : Z) :
  kvFails w (KVGetCall logsLimitKey) = false ->
  kvFails w (KVGetCall logsStartTimeKey) = false ->
  kv w !! logsLimitKey = Some bl -> json.Unmarshal_int bl 0 = Ok c ->
  kv w !! logsStartTimeKey = Some bs -> json.Unmarshal_int bs 0 = Ok s ->
  - maxSeconds <= s <= maxSeconds ->
  getLogsSpecific rest = (hostName, serviceDescription, message, true) ->
  let q := logRequest c hostName serviceDescription s (clock w) in
  (kind = "alerts" ->
   (getLogs Local emoji (kind :: rest) w).1 =
     Done (match nagios.QueryAlerts (client w) q with
           | Ok alerts => formatAlerts Local emoji alerts
           | Err _ => gettingLogsUnsuccessful
           end) /\
   exists evs, trace (getLogs Local emoji (kind :: rest) w).2
     = (trace w ++ EvKV (KVGetCall logsLimitKey) :: EvKV (KVGetCall logsStartTimeKey)
          :: EvQuery (nagios.AlertListRequest q) :: evs)%list) /\
  (kind = "notifications" ->
   (getLogs Local emoji (kind :: rest) w).1 =
     Done (match nagios.QueryNotifications (client w) q with
           | Ok notifications => formatNotifications Local notifications
           | Err _ => gettingLogsUnsuccessful
           end) /\
   exists evs, trace (getLogs Local emoji (kind :: rest) w).2
     = (trace w ++ EvKV (KVGetCall logsLimitKey) :: EvKV (KVGetCall logsStartTimeKey)
          :: EvQuery (nagios.NotificationListRequest q) :: evs)%list).
Proof.
  intros Hgl Hgs Hbl Hc Hbs Hs Hrange Hspec. cbv zeta.
  unfold getLogs, mbind, M_bind.
  rewrite (getLogsLimit_decoded w bl c Hgl Hbl Hc), Hspec. cbn [negb].
  rewrite (getLogsStartTime_decoded (record (EvKV (KVGetCall logsLimitKey)) w)
             bs s Hgs Hbs Hs).
  run_logs. rewrite (lookback_window (clock w) s Hrange).
  fold (logRequest c hostName serviceDescription s (clock w)).
  split; intros ->; cbn [String.eqb Ascii.eqb Bool.eqb].
  - destruct (nagios.QueryAlerts _ _); run_logs;
      (split; [reflexivity|repeat rewrite <- app_assoc; cbn [app]; eexists; reflexivity]).
  - destruct (nagios.QueryNotifications _ _); run_logs;
      (split; [reflexivity|repeat rewrite <- app_assoc; cbn [app]; eexists; reflexivity]).
Qed.

(** With the limit readable, malformed filter parameters are answered
    with their message after that single store read: the lookback is not
    read, no query is sent, and the log kind is not looked at. *)
Theorem getLogs_malformed_filters (p0 : string) (rest : list string) (w : World) (c : Z) :
  (getLogsLimit w).1 = Done (Ok c) ->
  (getLogsSpecific rest).2 = false ->
  (getLogs Local emoji (p0 :: rest) w).1 = Done (getLogsSpecific rest).1.2 /\
  trace (getLogs Local emoji (p0 :: rest) w).2
    = (trace w ++ [EvKV (KVGetCall logsLimitKey)])%list.
Proof.
  intros Hc Hbad. unfold getLogs, mbind, M_bind.
  destruct (getLogsLimit_run w) as [rc Hrc]. rewrite Hrc in *.
  cbn [fst] in Hc. injection Hc as ->.
  destruct (getLogsSpecific rest) as [[[hostName serviceDescription] message] ok].
  cbn [snd] in Hbad. subst ok. split; reflexivity.
Qed.

(** The log kind is examined last: a first parameter other than alerts
    and notifications is reported as unknown only after both settings
    were read and the filters accepted, and without a query. *)
Theorem getLogs_unknown_kind (p0 : string) (rest : list string) (w : World) (c d : Z) :
  p0 <> "alerts" -> p0 <> "notifications" ->
  (getLogsLimit w).1 = Done (Ok c) ->
  (getLogsSpecific rest).2 = true ->
  (getLogsStartTime (record (EvKV (KVGetCall logsLimitKey)) w)).1 = Done (Ok d) ->
  (getLogs Local emoji (p0 :: rest) w).1 = Done ("Unknown parameter (" +:+ p0 +:+ ").") /\
  trace (getLogs Local emoji (p0 :: rest) w).2
    = (trace w ++ [EvKV (KVGetCall logsLimitKey); EvKV (KVGetCall logsStartTimeKey)])%list.
Proof.
  intros Ha Hn Hc Hok Hd. unfold getLogs, mbind, M_bind.
  destruct (getLogsLimit_run w) as [rc Hrc]. rewrite Hrc in *.
  cbn [fst] in Hc. injection Hc as ->.
  destruct (getLogsSpecific rest) as [[[hostName serviceDescription] message] ok].
  cbn [snd] in Hok. subst ok. cbn [negb].
  destruct (getLogsStartTime_run (record (EvKV (KVGetCall logsLimitKey)) w)) as [rd Hrd].
  rewrite Hrd in *. cbn [fst] in Hd. injection Hd as ->.
  run_logs. apply String.eqb_neq in Ha, Hn. rewrite Ha, Hn.
  split; [reflexivity|]. run_logs. rewrite <- app_assoc. reflexivity.
Qed.

(** With the limit readable and the filters accepted, a lookback that
    cannot be read gives the failure message without a query. *)
Theorem getLogs_unreadable_lookback (p0 : string) (rest : list string) (w : World)
    (c : Z) (e : error) :
  (getLogsLimit w).1 = Done (Ok c) ->
  (getLogsSpecific rest).2 = true ->
  (getLogsStartTime (record (EvKV (KVGetCall logsLimitKey)) w)).1 = Done (Err e) ->
  (getLogs Local emoji (p0 :: rest) w).1 = Done gettingLogsUnsuccessful /\
  trace (getLogs Local emoji (p0 :: rest) w).2
    = (trace w ++ [EvKV (KVGetCall logsLimitKey); EvKV (KVGetCall logsStartTimeKey);
                   EvLogError "getLogsStartTime" e])%list.
Proof.
  intros Hc Hok Hd. unfold getLogs, mbind, M_bind.
  destruct (getLogsLimit_run w) as [rc Hrc]. rewrite Hrc in *.
  cbn [fst] in Hc. injection Hc as ->.
  destruct (getLogsSpecific rest) as [[[hostName serviceDescription] message] ok].
  cbn [snd] in Hok. subst ok. cbn [negb].
  destruct (getLogsStartTime_run (record (EvKV (KVGetCall logsLimitKey)) w)) as [rd Hrd].
  rewrite Hrd in *. cbn [fst] in Hd. injection Hd as ->.
  run_logs. split; [reflexivity|]. repeat rewrite <- app_assoc. reflexivity.
Qed.

End GetLogsRuns.

Lemma getLogs_query_witness :
  (getLogs time.UTC bracketState ["alerts"; "service"; "HTTP"] configuredWorld).1
    = Done "No alerts.".
Proof.
  apply (getLogs_query time.UTC bracketState "alerts" ["service"; "HTTP"] configuredWorld
           "50" "86400" "" "HTTP" "" 50 86400);
    try reflexivity; unfold maxSeconds; lia.
Defined.

Lemma getLogs_malformed_filters_witness :
  (getLogs time.UTC bracketState ["events"; "service"] configuredWorld).1
    = Done "You must supply service description.".
Proof.
  apply (getLogs_malformed_filters time.UTC bracketState "events" ["service"]
           configuredWorld 50); reflexivity.
Defined.

Lemma getLogs_unknown_kind_witness :
  (getLogs time.UTC bracketState ["events"; "host"; "web1"] configuredWorld).1
    = Done "Unknown parameter (events).".
Proof.
  apply (getLogs_unknown_kind time.UTC bracketState "events" ["host"; "web1"]
           configuredWorld 50 (86400 * time.Second));
    try reflexivity; discriminate.
Defined.

Lemma getLogs_unreadable_lookback_witness :
  (getLogs time.UTC bracketState ["alerts"]
     (set_kv (<[logsLimitKey := "50"]> ∅) freshWorld)).1 = Done gettingLogsUnsuccessful.
Proof.
  apply (getLogs_unreadable_lookback time.UTC bracketState "alerts" []
           (set_kv (<[logsLimitKey := "50"]> ∅) freshWorld) 50
           (Errorf "json.Unmarshal" ErrJSON)); reflexivity.
Defined.

(** ** Lines of a formatted result *)

(** With the status "Success" and at least one record, the result is
    the records' lines in order, joined by single newlines, with no
    newline before the first or after the last. *)
Theorem format_joins_entry_lines (Local : time.Location) (emoji : string -> string)
    (alerts : nagios.AlertList) (notifications : nagios.NotificationList) :
  (nagios.TypeText (nagios.AResult alerts) = "Success" ->
   nagios.AData alerts <> [] ->
   formatAlerts Local emoji alerts
   = String.concat newline (map (formatAlertListEntry Local emoji) (nagios.AData alerts))) /\
  (nagios.TypeText (nagios.NResult notifications) = "Success" ->
   nagios.NData notifications <> [] ->
   formatNotifications Local notifications
   = String.concat newline
       (map (formatNotificationListEntry Local) (nagios.NData notifications))).
Proof.
  unfold formatAlerts, formatNotifications, resultTypeTextSuccess.
  split; intros -> Hne; cbn [String.eqb Ascii.eqb Bool.eqb negb].
  - destruct (nagios.AData alerts) as [|e l]; [congruence|].
    cbn [List.length Nat.eqb]. apply writeEntries_concat.
  - destruct (nagios.NData notifications) as [|e l]; [congruence|].
    cbn [List.length Nat.eqb]. apply writeEntries_concat.
Qed.

Lemma format_joins_entry_lines_witness :
  formatAlerts time.UTC bracketState
    {| nagios.AResult := successResult; nagios.AData := [sampleAlert; sampleHostAlert] |}
  = String.concat newline
      [formatAlertListEntry time.UTC bracketState sampleAlert;
       formatAlertListEntry time.UTC bracketState sampleHostAlert].
Proof.
  apply (format_joins_entry_lines time.UTC bracketState
           {| nagios.AResult := successResult; nagios.AData := [sampleAlert; sampleHostAlert] |}
           {| nagios.NResult := successResult; nagios.NData := [] |});
    [reflexivity|discriminate].
Defined.

(** ** Parameters that no handler acts on *)

Section Refusals.

Variable Local : time.Location.
Variable emoji : string -> string.
Variable jsonString : string -> string.

Lemma wrong_arity_changes_nothing_run (channelID : string) (parameters : list string)
    (w : World) :
  List.length parameters <> 1%nat ->
  setLogsLimit parameters w
    = (Done "You must supply exactly one parameter (integer value).", w) /\
  setLogsStartTime parameters w
    = (Done "You must supply exactly one parameter (number of seconds).", w) /\
  setReportFrequency parameters w
    = (Done "You must supply exactly one parameter (number of minutes).", w) /\
  subscribe jsonString channelID parameters w
    = (Done "You must supply exactly one parameter (report|configuration-changes).", w) /\
  unsubscribe parameters w
    = (Done "You must supply exactly one parameter (report|configuration-changes).", w) /\
  getLogs Local emoji [] w
    = (Done "You must supply at least one parameter (alerts|notifications).", w).
Proof.
  intros Hlen.
  unfold setLogsLimit, setLogsStartTime, setReportFrequency, subscribe, unsubscribe.
  destruct parameters as [|p [|q r]]; [|cbn [List.length] in Hlen; lia|];
    repeat split.
Qed.

(** A call with a number of parameters other than one (for get-log:
    with none) is answered with the usage message and does nothing: no
    store call, no log entry, no channel operation. *)
Theorem wrong_arity_changes_nothing (channelID : string) (parameters : list string)
    (w : World) :
  List.length parameters <> 1%nat ->
  setLogsLimit parameters w
    = (Done "You must supply exactly one parameter (integer value).", w) /\
  setLogsStartTime parameters w
    = (Done "You must supply exactly one parameter (number of seconds).", w) /\
  setReportFrequency parameters w
    = (Done "You must supply exactly one parameter (number of minutes).", w) /\
  subscribe jsonString channelID parameters w
    = (Done "You must supply exactly one parameter (report|configuration-changes).", w) /\
  unsubscribe parameters w
    = (Done "You must supply exactly one parameter (report|configuration-changes).", w) /\
  getLogs Local emoji [] w
    = (Done "You must supply at least one parameter (alerts|notifications).", w).
Proof. intros. apply wrong_arity_changes_nothing_run; assumption. Qed.

Lemma unknown_subscription_changes_nothing_run (channelID p : string) (w : World) :
  p <> "report" -> p <> "configuration-changes" ->
  subscribe jsonString channelID [p] w
    = (Done ("Unknown parameter (" +:+ p +:+ ")."), w) /\
  unsubscribe [p] w = (Done ("Unknown parameter (" +:+ p +:+ ")."), w).
Proof.
  intros Hr Hc. apply String.eqb_neq in Hr, Hc.
  unfold subscribe, unsubscribe. cbn [List.length Nat.eqb negb hd].
  rewrite Hr, Hc. split; reflexivity.
Qed.

(** subscribe and unsubscribe with a parameter other than report and
    configuration-changes name the parameter and do nothing. *)
Theorem unknown_subscription_changes_nothing (channelID p : string) (w : World) :
  p <> "report" -> p <> "configuration-changes" ->
  subscribe jsonString channelID [p] w
    = (Done ("Unknown parameter (" +:+ p +:+ ")."), w) /\
  unsubscribe [p] w = (Done ("Unknown parameter (" +:+ p +:+ ")."), w).
Proof. intros. apply unknown_subscription_changes_nothing_run; assumption. Qed.

End Refusals.

Lemma wrong_arity_changes_nothing_witness :
  subscribe quoted "ops" ["report"; "now"] subscribedWorld
  = (Done "You must supply exactly one parameter (report|configuration-changes).",
     subscribedWorld).
Proof.
  apply (wrong_arity_changes_nothing time.UTC bracketState quoted "ops"
           ["report"; "now"] subscribedWorld).
  cbn [List.length]. lia.
Defined.

Lemma unknown_subscription_changes_nothing_witness :
  unsubscribe ["reports"] freshWorld = (Done "Unknown parameter (reports).", freshWorld).
Proof.
  apply (unknown_subscription_changes_nothing quoted "ops" "reports" freshWorld);
    discriminate.
Defined.

(** ** The changes channel and the report subscription *)

Section SubscriptionRuns.

Variable jsonString : string -> string.

Lemma subscribe_changes_run (channelID : string) (w : World) :
  let write := KVSetCall changesChannelKey (jsonString channelID) in
  subscribe jsonString channelID ["configuration-changes"] w =
    if kvFails w write then
      (Done settingChangesChannelUnsuccessful,
       record (EvLogError "KVSet" AppError) (record (EvKV write) w))
    else
      (Done "Subscribed to configuration changes successfully.",
       set_kv (<[changesChannelKey := jsonString channelID]> (kv w))
         (record (EvKV write) w)).
Proof.
  cbv zeta. unfold subscribe, setChangesChannel, Marshal_string, KVSet, mbind, M_bind.
  cbn [List.length Nat.eqb negb hd String.eqb Ascii.eqb Bool.eqb kvFails record set_trace].
  destruct (kvFails w _); reflexivity.
Qed.

Lemma unsubscribe_changes_run (w : World) :
  unsubscribe ["configuration-changes"] w =
    if kvFails w (KVDeleteCall changesChannelKey) then
      (Done unsubscribingUnsuccessful,
       record (EvLogError "KVDelete" AppError)
         (record (EvKV (KVDeleteCall changesChannelKey)) w))
    else
      (Done "Unsubscribed successfully.",
       set_kv (delete changesChannelKey (kv w))
         (record (EvKV (KVDeleteCall changesChannelKey)) w)).
Proof.
  unfold unsubscribe, KVDelete, mbind, M_bind.
  cbn [List.length Nat.eqb negb hd String.eqb Ascii.eqb Bool.eqb kvFails record set_trace].
  destruct (kvFails w _); reflexivity.
Qed.

Lemma unsubscribe_report_sends (w : World) (c : Chan) (ch : chanState) :
  subscriptionStop w = Some c ->
  chans w !! c = Some ch ->
  (List.length (buf ch) < cap ch)%nat ->
  unsubscribe ["report"] w =
    let w1 := record (EvSend c true)
                (set_chans (<[c := {| cap := cap ch; buf := buf ch ++ [true] |}]> (chans w)) w) in
    let w2 := record (EvKV (KVDeleteCall reportChannelKey)) w1 in
    if kvFails w (KVDeleteCall reportChannelKey) then
      (Done unsubscribingUnsuccessful, record (EvLogError "KVDelete" AppError) w2)
    else (Done "Unsubscribed successfully.", set_kv (delete reportChannelKey (kv w)) w2).
Proof.
  intros Hc Hch Hroom. apply Nat.ltb_lt in Hroom.
  unfold unsubscribe, loadSubscriptionStop, send, KVDelete, mbind, M_bind.
  cbn [List.length Nat.eqb negb hd String.eqb Ascii.eqb Bool.eqb].
  rewrite Hc. cbv beta iota. rewrite Hch. cbv beta iota. rewrite Hroom.
  cbv beta iota zeta. cbn [kvFails record set_trace set_chans].
  destruct (kvFails w _); reflexivity.
Qed.

Lemma unsubscribe_report_full (w : World) (c : Chan) (ch : chanState) :
  subscriptionStop w = Some c ->
  chans w !! c = Some ch ->
  (cap ch <= List.length (buf ch))%nat ->
  unsubscribe ["report"] w = (Blocked, w).
Proof.
  intros Hc Hch Hfull. apply Nat.ltb_ge in Hfull.
  unfold unsubscribe, loadSubscriptionStop, send, mbind, M_bind.
  cbn [List.length Nat.eqb negb hd String.eqb Ascii.eqb Bool.eqb].
  rewrite Hc. cbv beta iota. rewrite Hch. cbv beta iota. rewrite Hfull. reflexivity.
Qed.

Lemma subscribe_changes_only_stores_run (channelID : string) (w : World) :
  let r := subscribe jsonString channelID ["configuration-changes"] w in
  let write := KVSetCall changesChannelKey (jsonString channelID) in
  subscriptionStop r.2 = subscriptionStop w /\
  chans r.2 = chans w /\
  goroutines r.2 = goroutines w /\
  (kvFails w write = false ->
   r.1 = Done "Subscribed to configuration changes successfully." /\
   kv r.2 = <[changesChannelKey := jsonString channelID]> (kv w) /\
   trace r.2 = (trace w ++ [EvKV write])%list) /\
  (kvFails w write = true ->
   r.1 = Done settingChangesChannelUnsuccessful /\
   kv r.2 = kv w /\
   trace r.2 = (trace w ++ [EvKV write; EvLogError "KVSet" AppError])%list).
Proof.
  cbv zeta. rewrite subscribe_changes_run. cbv zeta.
  destruct (kvFails w _); repeat split; try discriminate;
    cbn [snd trace record set_trace set_kv]; rewrite <- ?app_assoc; reflexivity.
Qed.

(** subscribe configuration-changes only talks to the store: it makes no
    channel, starts no task and leaves the stop field alone; when the
    store accepts the write the changes channel holds the JSON text of
    the invoking channel, otherwise the store is as before and the
    failure message is returned. *)
Theorem subscribe_changes_only_stores (channelID : string) (w : World) :
  let r := subscribe jsonString channelID ["configuration-changes"] w in
  let write := KVSetCall changesChannelKey (jsonString channelID) in
  subscriptionStop r.2 = subscriptionStop w /\
  chans r.2 = chans w /\
  goroutines r.2 = goroutines w /\
  (kvFails w write = false ->
   r.1 = Done "Subscribed to configuration changes successfully." /\
   kv r.2 = <[changesChannelKey := jsonString channelID]> (kv w) /\
   trace r.2 = (trace w ++ [EvKV write])%list) /\
  (kvFails w write = true ->
   r.1 = Done settingChangesChannelUnsuccessful /\
   kv r.2 = kv w /\
   trace r.2 = (trace w ++ [EvKV write; EvLogError "KVSet" AppError])%list).
Proof. intros. apply subscribe_changes_only_stores_run; assumption. Qed.

Lemma unsubscribe_changes_never_blocks_run (w : World) :
  let r := unsubscribe ["configuration-changes"] w in
  (exists msg, r.1 = Done msg) /\
  subscriptionStop r.2 = subscriptionStop w /\
  chans r.2 = chans w /\
  goroutines r.2 = goroutines w /\
  (kvFails w (KVDeleteCall changesChannelKey) = false ->
   r.1 = Done "Unsubscribed successfully." /\
   kv r.2 !! changesChannelKey = None /\
   forall k, k <> changesChannelKey -> kv r.2 !! k = kv w !! k) /\
  (kvFails w (KVDeleteCall changesChannelKey) = true ->
   r.1 = Done unsubscribingUnsuccessful /\ kv r.2 = kv w).
Proof.
  cbv zeta. rewrite unsubscribe_changes_run.
  destruct (kvFails w _); (split; [eexists; reflexivity|]);
    repeat split; try discriminate; cbn [snd kv set_kv record set_trace].
  - apply lookup_delete_eq.
  - intros k Hk. apply lookup_delete_ne. congruence.
Qed.

(** unsubscribe configuration-changes never waits on the stop channel:
    it returns also when no report subscription exists, sends nothing,
    and deletes the changes channel while every other key stays. *)
Theorem unsubscribe_changes_never_blocks (w : World) :
  let r := unsubscribe ["configuration-changes"] w in
  (exists msg, r.1 = Done msg) /\
  subscriptionStop r.2 = subscriptionStop w /\
  chans r.2 = chans w /\
  goroutines r.2 = goroutines w /\
  (kvFails w (KVDeleteCall changesChannelKey) = false ->
   r.1 = Done "Unsubscribed successfully." /\
   kv r.2 !! changesChannelKey = None /\
   forall k, k <> changesChannelKey -> kv r.2 !! k = kv w !! k) /\
  (kvFails w (KVDeleteCall changesChannelKey) = true ->
   r.1 = Done unsubscribingUnsuccessful /\ kv r.2 = kv w).
Proof. intros. apply unsubscribe_changes_never_blocks_run; assumption. Qed.

(** subscribe report followed by unsubscribe report, with a store that
    accepts both calls: the report channel holds the JSON text of the
    invoking channel in between and is absent afterwards; one value
    [true] is queued on the stop channel; the stop field is not cleared,
    so that a further unsubscribe report, made before a receiver took
    the value, blocks on the full channel and changes nothing. *)
Theorem subscribe_then_unsubscribe_report (channelID : string) (w : World) :
  kvFails w (KVSetCall reportChannelKey (jsonString channelID)) = false ->
  kvFails w (KVDeleteCall reportChannelKey) = false ->
  let stop := List.length (chans w) in
  let w1 := (subscribe jsonString channelID ["report"] w).2 in
  let r := unsubscribe ["report"] w1 in
  kv w1 !! reportChannelKey = Some (jsonString channelID) /\
  r.1 = Done "Unsubscribed successfully." /\
  kv r.2 !! reportChannelKey = None /\
  chans r.2 !! stop = Some {| cap := 1; buf := [true] |} /\
  subscriptionStop r.2 = Some stop /\
  unsubscribe ["report"] r.2 = (Blocked, r.2).
Proof.
  intros Hset Hdel. cbv zeta.
  rewrite subscribe_report_run, setReportChannel_run. cbv zeta.
  change (kvFails (reportStarted channelID w)) with (kvFails w). rewrite Hset.
  cbn [snd]. split; [cbn [kv set_kv]; apply lookup_insert_eq|].
  set (w1 := set_kv _ _).
  assert (Hstop : subscriptionStop w1 = Some (List.length (chans w))) by reflexivity.
  assert (Hch : chans w1 !! List.length (chans w) = Some {| cap := 1; buf := [] |}).
  { subst w1. unfold reportStarted.
    cbn [chans set_kv record set_trace set_subscriptionStop set_goroutines set_chans].
    apply list_lookup_middle. reflexivity. }
  destruct (unsubscribe_report_active w1 (List.length (chans w)) 0 Hstop Hch Hdel)
    as (Hmsg & Hkv & Hbuf & Htrace).
  split; [exact Hmsg|]. split; [rewrite Hkv; apply lookup_delete_eq|].
  split; [exact Hbuf|].
  assert (Hstop2 : subscriptionStop (unsubscribe ["report"] w1).2
                   = Some (List.length (chans w))).
  { rewrite (unsubscribe_report_sends w1 _ _ Hstop Hch) by (cbn [buf cap List.length]; lia).
    cbv zeta. change (kvFails w1) with (kvFails w). rewrite Hdel. reflexivity. }
  split; [exact Hstop2|].
  apply (unsubscribe_report_full _ _ _ Hstop2 Hbuf). cbn [buf cap List.length]. lia.
Qed.

End SubscriptionRuns.

Lemma subscribe_changes_only_stores_witness :
  kv (subscribe quoted "ops" ["configuration-changes"] configuredWorld).2
  = <[changesChannelKey := quoted "ops"]> (kv configuredWorld) /\
  kv (subscribe quoted "ops" ["configuration-changes"] brokenWorld).2 = kv brokenWorld.
Proof.
  split.
  - apply (subscribe_changes_only_stores quoted "ops" configuredWorld). reflexivity.
  - apply (subscribe_changes_only_stores quoted "ops" brokenWorld). reflexivity.
Defined.

Lemma unsubscribe_changes_never_blocks_witness :
  (unsubscribe ["configuration-changes"] freshWorld).1 = Done "Unsubscribed successfully." /\
  (unsubscribe ["configuration-changes"] brokenWorld).1 = Done unsubscribingUnsuccessful.
Proof.
  split.
  - apply (unsubscribe_changes_never_blocks freshWorld). reflexivity.
  - apply (unsubscribe_changes_never_blocks brokenWorld). reflexivity.
Defined.

Lemma subscribe_then_unsubscribe_report_witness :
  kv (unsubscribe ["report"] (subscribe quoted "ops" ["report"] configuredWorld).2).2
    !! reportChannelKey = None.
Proof.
  apply (subscribe_then_unsubscribe_report quoted "ops" configuredWorld); reflexivity.
Defined.

(** ** Sequences of commands *)

Section CommandSequences.

Variable Local : time.Location.
Variable emoji : string -> string.
Variable jsonString : string -> string.

Ltac run_setter :=
  cbn [List.length Nat.eqb negb hd];
  unfold json.Marshal_int, LogError, emit, KVSet, mbind, M_bind, mret, M_ret;
  cbn [kvFails record set_trace kv set_kv].

Ltac setter_frame parse :=
  intros parameters w;
  destruct parameters as [|p [|q r]]; run_setter; [repeat split| |repeat split];
  destruct (parse p) as [i|e]; run_setter; [|repeat split];
  destruct (i <=? 0); run_setter; [repeat split|];
  destruct (kvFails w _); repeat split.

Lemma setLogsLimit_frame :
  forall parameters w,
    subscriptionStop (setLogsLimit parameters w).2 = subscriptionStop w /\
    chans (setLogsLimit parameters w).2 = chans w /\
    goroutines (setLogsLimit parameters w).2 = goroutines w.
Proof. unfold setLogsLimit. setter_frame strconv.Atoi. Qed.

Lemma setLogsStartTime_frame :
  forall parameters w,
    subscriptionStop (setLogsStartTime parameters w).2 = subscriptionStop w /\
    chans (setLogsStartTime parameters w).2 = chans w /\
    goroutines (setLogsStartTime parameters w).2 = goroutines w.
Proof. unfold setLogsStartTime. setter_frame strconv.ParseInt. Qed.

Lemma setReportFrequency_frame :
  forall parameters w,
    subscriptionStop (setReportFrequency parameters w).2 = subscriptionStop w /\
    chans (setReportFrequency parameters w).2 = chans w /\
    goroutines (setReportFrequency parameters w).2 = goroutines w.
Proof. unfold setReportFrequency. setter_frame strconv.Atoi. Qed.

Lemma unsubscribe_report_dangling (w : World) (c : Chan) :
  subscriptionStop w = Some c -> chans w !! c = None ->
  unsubscribe ["report"] w = (Blocked, w).
Proof.
  intros Hc Hch. unfold unsubscribe, loadSubscriptionStop, send, mbind, M_bind.
  cbn [List.length Nat.eqb negb hd String.eqb Ascii.eqb Bool.eqb].
  rewrite Hc. cbv beta iota. rewrite Hch. reflexivity.
Qed.

(** What one call does to the stop field, the channels and the started
    tasks: nothing; or (subscribe report) a new empty channel of
    capacity 1, a new task on it, and the stop field set to it; or
    (unsubscribe report) one [true] queued on the channel of the stop
    field, which had room. *)
Lemma call_runtime (c : Call) (w : World) :
  let w' := (call Local emoji jsonString c w).2 in
  (subscriptionStop w' = subscriptionStop w /\ chans w' = chans w /\
   goroutines w' = goroutines w) \/
  (subscriptionStop w' = Some (List.length (chans w)) /\
   chans w' = (chans w ++ [{| cap := 1; buf := [] |}])%list /\
   goroutines w' =
     (goroutines w ++ [addMonitoringReport (callChannel c) (List.length (chans w))])%list) \/
  (exists k ch,
     subscriptionStop w = Some k /\ chans w !! k = Some ch /\
     (List.length (buf ch) < cap ch)%nat /\
     subscriptionStop w' = Some k /\
     chans w' = <[k := {| cap := cap ch; buf := buf ch ++ [true] |}]> (chans w) /\
     goroutines w' = goroutines w).
Proof.
  cbv zeta. destruct c as [h channelID parameters].
  unfold call. cbn [callee callChannel callParameters].
  destruct h; cbn [handlerFunc];
    unfold cmd.setLogsLimit, cmd.setLogsStartTime, cmd.getLogs,
      cmd.setReportFrequency, cmd.subscribe, cmd.unsubscribe.
  - left. apply setLogsLimit_frame.
  - left. apply setLogsStartTime_frame.
  - left. destruct (getLogs_only_reads_run Local emoji parameters w) as (_ & evs & -> & _).
    repeat split.
  - left. apply setReportFrequency_frame.
  - destruct (Nat.eq_dec (List.length parameters) 1%nat) as [Hlen|Hlen].
    + destruct parameters as [|p [|q r]]; try discriminate Hlen.
      destruct (String.eqb_spec p "report") as [->|Hr].
      { right. left. rewrite subscribe_report_run.
        destruct (setReportChannel_frame jsonString channelID (reportStarted channelID w))
          as (_ & Hstop & Hchans & Hgo & _).
        cbv zeta in *. rewrite Hstop, Hchans, Hgo. repeat split. }
      destruct (String.eqb_spec p "configuration-changes") as [->|Hc].
      { left. destruct (subscribe_changes_only_stores_run jsonString channelID w)
          as (H1 & H2 & H3 & _). cbv zeta in *. auto. }
      left. destruct (unknown_subscription_changes_nothing_run jsonString channelID p w Hr Hc)
        as [-> _]. repeat split.
    + left. destruct (wrong_arity_changes_nothing_run Local emoji jsonString channelID
                        parameters w Hlen) as (_ & _ & _ & -> & _). repeat split.
  - destruct (Nat.eq_dec (List.length parameters) 1%nat) as [Hlen|Hlen].
    + destruct parameters as [|p [|q r]]; try discriminate Hlen.
      destruct (String.eqb_spec p "report") as [->|Hr].
      { destruct (subscriptionStop w) as [k|] eqn:Hstop;
          [|left; rewrite (unsubscribe_report_nil w Hstop); repeat split; exact Hstop].
        destruct (chans w !! k) as [ch|] eqn:Hch;
          [|left; rewrite (unsubscribe_report_dangling w k Hstop Hch);
            repeat split; exact Hstop].
        destruct (Nat.lt_ge_cases (List.length (buf ch)) (cap ch)) as [Hroom|Hfull];
          [|left; rewrite (unsubscribe_report_full w k ch Hstop Hch Hfull);
            repeat split; exact Hstop].
        right. right. exists k, ch.
        rewrite (unsubscribe_report_sends w k ch Hstop Hch Hroom). cbv zeta.
        destruct (kvFails w _); repeat split; try assumption. }
      destruct (String.eqb_spec p "configuration-changes") as [->|Hc].
      { left. destruct (unsubscribe_changes_never_blocks_run w) as (_ & H1 & H2 & H3 & _).
        cbv zeta in *. auto. }
      left. destruct (unknown_subscription_changes_nothing_run jsonString channelID p w Hr Hc)
        as [_ ->]. repeat split.
    + left. destruct (wrong_arity_changes_nothing_run Local emoji jsonString channelID
                        parameters w Hlen) as (_ & _ & _ & _ & -> & _). repeat split.
Qed.

End CommandSequences.

(** ** What every sequence of commands keeps *)

Section Invariants.

Variable Local : time.Location.
Variable emoji : string -> string.
Variable jsonString : string -> string.

Lemma call_superseded (c : Chan) (x : Call) (w : World) :
  superseded c w ->
  superseded c (call Local emoji jsonString x w).2 /\
  chans (call Local emoji jsonString x w).2 !! c = chans w !! c.
Proof.
  intros (k & Hk & Hc).
  destruct (call_runtime Local emoji jsonString x w)
    as [(Hs & Hch & _)|[(Hs & Hch & _)|(k' & ch & Hk' & Hl & _ & Hs & Hch & _)]];
    cbv zeta in *.
  - split; [|rewrite Hch; reflexivity].
    exists k. rewrite Hs, Hch. split; assumption.
  - split.
    + exists (List.length (chans w)). rewrite Hs, Hch, length_app.
      cbn [List.length]. split; [reflexivity|lia].
    + rewrite Hch. apply lookup_app_l. lia.
  - rewrite Hk in Hk'. injection Hk' as <-. split.
    + exists k. rewrite Hs, Hch, length_insert. split; [reflexivity|exact Hc].
    + rewrite Hch. apply list_lookup_insert_ne. lia.
Qed.


Lemma call_wellFormed (x : Call) (w : World) :
  wellFormed w -> wellFormed (call Local emoji jsonString x w).2.
Proof.
  intros (Hlen & Htask & Hcap & Hstop).
  destruct (call_runtime Local emoji jsonString x w)
    as [(Hs & Hch & Hg)|[(Hs & Hch & Hg)|(k & ch & Hk & Hl & Hroom & Hs & Hch & Hg)]];
    cbv zeta in *; unfold wellFormed; rewrite Hs, Hch, Hg.
  - split; [exact Hlen|]. split; [exact Htask|]. split; [exact Hcap|exact Hstop].
  - rewrite !length_app. cbn [List.length]. split; [lia|]. split; [|split; [|lia]].
    + intros i g Hi. apply lookup_app_Some in Hi as [Hi|[Hge Hi]].
      * apply (Htask i g Hi).
      * apply list_lookup_singleton_Some in Hi as [Hi <-].
        exists (callChannel x). f_equal. lia.
    + intros i c Hi. apply lookup_app_Some in Hi as [Hi|[Hge Hi]].
      * apply (Hcap i c Hi).
      * apply list_lookup_singleton_Some in Hi as [_ <-].
        cbn [cap buf List.length]. lia.
  - rewrite length_insert. rewrite Hk in Hstop.
    split; [exact Hlen|]. split; [exact Htask|]. split; [|exact Hstop].
    intros i c Hi. destruct (Nat.eq_dec i k) as [->|Hne].
    + rewrite list_lookup_insert_eq in Hi by (eapply lookup_lt_Some; exact Hl).
      injection Hi as <-. destruct (Hcap k ch Hl) as [Hc1 Hb].
      cbn [cap buf]. rewrite length_app. cbn [List.length]. lia.
    + rewrite list_lookup_insert_ne in Hi by congruence. apply (Hcap i c Hi).
Qed.


(** A call changes the store at most under the one key of its command:
    every other key reads as before. get-log and the refused calls
    change no key at all. *)
Theorem call_writes_at_most_its_key (x : Call) (w : World) (k : string) :
  writtenKey x <> Some k ->
  kv (call Local emoji jsonString x w).2 !! k = kv w !! k.
Proof.
  destruct x as [h channelID parameters].
  unfold call, writtenKey. cbn [callee callChannel callParameters].
  destruct h; cbn [handlerFunc];
    unfold cmd.setLogsLimit, cmd.setLogsStartTime, cmd.getLogs,
      cmd.setReportFrequency, cmd.subscribe, cmd.unsubscribe; intros Hk.
  - destruct (setLogsLimit_write parameters w) as (msg & _ & [(_ & p & i & -> & _ & _ & ->)|(_ & ->)]);
      [apply lookup_insert_ne; congruence|reflexivity].
  - destruct (setLogsStartTime_write parameters w) as (msg & _ & [(_ & p & i & -> & _ & _ & ->)|(_ & ->)]);
      [apply lookup_insert_ne; congruence|reflexivity].
  - destruct (getLogs_only_reads_run Local emoji parameters w) as (_ & evs & -> & _).
    reflexivity.
  - destruct (setReportFrequency_write parameters w) as (msg & _ & [(_ & p & i & -> & _ & _ & ->)|(_ & ->)]);
      [apply lookup_insert_ne; congruence|reflexivity].
  - destruct (Nat.eq_dec (List.length parameters) 1%nat) as [Hlen|Hlen].
    + destruct parameters as [|p [|q r]]; try discriminate Hlen.
      destruct (String.eqb_spec p "report") as [->|Hr].
      { rewrite subscribe_report_run, setReportChannel_run. cbv zeta.
        destruct (kvFails _ _); [reflexivity|].
        cbn [snd kv set_kv]. apply lookup_insert_ne. congruence. }
      destruct (String.eqb_spec p "configuration-changes") as [->|Hc].
      { rewrite subscribe_changes_run. cbv zeta.
        destruct (kvFails _ _); [reflexivity|].
        cbn [snd kv set_kv]. apply lookup_insert_ne. congruence. }
      destruct (unknown_subscription_changes_nothing_run jsonString channelID p w Hr Hc)
        as [-> _]. reflexivity.
    + destruct (wrong_arity_changes_nothing_run Local emoji jsonString channelID
                  parameters w Hlen) as (_ & _ & _ & -> & _). reflexivity.
  - destruct (Nat.eq_dec (List.length parameters) 1%nat) as [Hlen|Hlen].
    + destruct parameters as [|p [|q r]]; try discriminate Hlen.
      destruct (String.eqb_spec p "report") as [->|Hr].
      { destruct (subscriptionStop w) as [c|] eqn:Hstop;
          [|rewrite (unsubscribe_report_nil w Hstop); reflexivity].
        destruct (chans w !! c) as [ch|] eqn:Hch;
          [|rewrite (unsubscribe_report_dangling w c Hstop Hch); reflexivity].
        destruct (Nat.lt_ge_cases (List.length (buf ch)) (cap ch)) as [Hroom|Hfull];
          [|rewrite (unsubscribe_report_full w c ch Hstop Hch Hfull); reflexivity].
        rewrite (unsubscribe_report_sends w c ch Hstop Hch Hroom). cbv zeta.
        destruct (kvFails _ _); [reflexivity|].
        cbn [snd kv set_kv]. apply lookup_delete_ne. congruence. }
      destruct (String.eqb_spec p "configuration-changes") as [->|Hc].
      { rewrite unsubscribe_changes_run.
        destruct (kvFails _ _); [reflexivity|].
        cbn [snd kv set_kv]. apply lookup_delete_ne. congruence. }
      destruct (unknown_subscription_changes_nothing_run jsonString channelID p w Hr Hc)
        as [_ ->]. reflexivity.
    + destruct (wrong_arity_changes_nothing_run Local emoji jsonString channelID
                  parameters w Hlen) as (_ & _ & _ & _ & -> & _). reflexivity.
Qed.

End Invariants.



Lemma call_writes_at_most_its_key_witness :
  kv (call time.UTC bracketState quoted
        {| callee := HSetLogsLimit; callChannel := "ops"; callParameters := ["5"] |}
        configuredWorld).2 !! logsStartTimeKey = Some "86400".
Proof.
  refine (eq_trans (call_writes_at_most_its_key time.UTC bracketState quoted _ _ _ _) _).
  - cbn. discriminate.
  - reflexivity.
Defined.

(** ** Reading the changes channel *)

Section ChangesChannelFacts.

Variable jsonString : string -> string.
Variable jsonUnmarshalString : string -> result string.

(** With a working store and a decoder that reads the JSON text of the
    channel back: after subscribe configuration-changes the changes
    channel reads as the invoking channel, and after unsubscribe
    configuration-changes it reads as the empty channel without an error
    (unlike the numeric settings, an absent key is no error here). *)
Theorem changes_channel_round_trip (channelID : string) (w : World) :
  jsonUnmarshalString (jsonString channelID) = Ok channelID ->
  kvFails w (KVSetCall changesChannelKey (jsonString channelID)) = false ->
  kvFails w (KVGetCall changesChannelKey) = false ->
  kvFails w (KVDeleteCall changesChannelKey) = false ->
  let w1 := (subscribe jsonString channelID ["configuration-changes"] w).2 in
  let w2 := (unsubscribe ["configuration-changes"] w1).2 in
  (getChangesChannel jsonUnmarshalString w1).1 = Done (Ok channelID) /\
  (getChangesChannel jsonUnmarshalString w2).1 = Done (Ok "").
Proof.
  intros Hdec Hset Hget Hdel. cbv zeta.
  rewrite subscribe_changes_run. cbv zeta. rewrite Hset. cbn [snd].
  rewrite unsubscribe_changes_run.
  cbn [kvFails set_kv record set_trace]. rewrite Hdel. cbn [snd].
  unfold getChangesChannel, KVGet, mbind, M_bind, mret, M_ret.
  cbn [kvFails kv set_kv record set_trace]. rewrite Hget.
  rewrite lookup_insert_eq, lookup_delete_eq, Hdec. split; reflexivity.
Qed.

End ChangesChannelFacts.

Lemma changes_channel_round_trip_witness :
  let decode := fun b => if String.eqb b (quoted "ops") then Ok "ops" else Err ErrJSON in
  (getChangesChannel decode
     (subscribe quoted "ops" ["configuration-changes"] configuredWorld).2).1
  = Done (Ok "ops").
Proof.
  cbv zeta.
  apply (changes_channel_round_trip quoted
           (fun b => if String.eqb b (quoted "ops") then Ok "ops" else Err ErrJSON)
           "ops" configuredWorld); reflexivity.
Defined.

(** ** Formatting runs *)

Section FormattingRuns.

Variable runEmoji : string -> P string.
Variable emoji : string -> string.

(** The state indicator is a table lookup: it returns [emoji state] and
    leaves the process as it is. *)
Hypothesis runEmoji_table : forall state p, runEmoji state p = (Done (emoji state), p).

Lemma runWriteEntries_pure {A : Type} (f : A -> P string) (g : A -> string)
    (l : list A) (p : Process) :
  (forall v, f v p = (Done (g v), p)) ->
  forall i b, runWriteEntries f l i b p = (Done (writeEntries g l i b), p).
Proof.
  intros Hf. induction l as [|v l IH]; intros i b; [reflexivity|].
  cbn [runWriteEntries writeEntries]. unfold mbind, P_bind. rewrite Hf. apply IH.
Qed.

Lemma runFormatAlertListEntry_pure (e : nagios.AlertListEntry) (p : Process) :
  runFormatAlertListEntry runEmoji e p
  = (Done (formatAlertListEntry (procLocal p) emoji e), p).
Proof.
  unfold runFormatAlertListEntry, mbind, P_bind. rewrite runEmoji_table. reflexivity.
Qed.

Lemma runFormatNotificationListEntry_pure (e : nagios.NotificationListEntry) (p : Process) :
  runFormatNotificationListEntry e p
  = (Done (formatNotificationListEntry (procLocal p) e), p).
Proof. reflexivity. Qed.

(** Run on a process, the formatters return what the functions of the
    time zone compute, and leave the process as it is. *)
Lemma runFormat_pure (alerts : nagios.AlertList) (notifications : nagios.NotificationList)
    (p : Process) :
  runFormatAlerts runEmoji alerts p = (Done (formatAlerts (procLocal p) emoji alerts), p) /\
  runFormatNotifications notifications p
  = (Done (formatNotifications (procLocal p) notifications), p).
Proof.
  unfold runFormatAlerts, runFormatNotifications, formatAlerts, formatNotifications.
  split.
  - destruct (negb _); [reflexivity|]. destruct (_ =? _)%nat; [reflexivity|].
    apply runWriteEntries_pure. intros e. apply runFormatAlertListEntry_pure.
  - destruct (negb _); [reflexivity|]. destruct (_ =? _)%nat; [reflexivity|].
    apply runWriteEntries_pure. intros e. apply runFormatNotificationListEntry_pure.
Qed.

(** C7. Formatting is deterministic. Written as computations that could
    read or change anything the process holds, and given that the state
    indicator is a table lookup, the alert and the notification formatter
    always return, leave the process unchanged, and compute their text
    from the result and the time zone alone: on two processes whose time
    zones agree at every instant, whatever their stores, wall clocks,
    channels and records of calls, the same result gives the same text;
    and formatting the same result twice in a row gives that text twice. *)
Theorem formatting_runs_are_deterministic
    (alerts : nagios.AlertList) (notifications : nagios.NotificationList)
    (p1 p2 : Process) :
  (forall sec, time.lookup (procLocal p1) sec = time.lookup (procLocal p2) sec) ->
  (exists out,
      runFormatAlerts runEmoji alerts p1 = (Done out, p1) /\
      runFormatAlerts runEmoji alerts p2 = (Done out, p2) /\
      (first ← runFormatAlerts runEmoji alerts;
       second ← runFormatAlerts runEmoji alerts;
       mret (first, second)) p1 = (Done (out, out), p1)) /\
  (exists out,
      runFormatNotifications notifications p1 = (Done out, p1) /\
      runFormatNotifications notifications p2 = (Done out, p2) /\
      (first ← runFormatNotifications notifications;
       second ← runFormatNotifications notifications;
       mret (first, second)) p1 = (Done (out, out), p1)).
Proof.
  intros Hzone.
  destruct (runFormat_pure alerts notifications p1) as [Ha1 Hn1].
  destruct (runFormat_pure alerts notifications p2) as [Ha2 Hn2].
  destruct (formatters_respect_zone emoji (procLocal p1) (procLocal p2)
              alerts notifications Hzone) as [Hza Hzn].
  split.
  - exists (formatAlerts (procLocal p1) emoji alerts).
    split; [exact Ha1|]. split; [rewrite Hza; exact Ha2|].
    unfold mbind, P_bind. rewrite Ha1, Ha1. reflexivity.
  - exists (formatNotifications (procLocal p1) notifications).
    split; [exact Hn1|]. split; [rewrite Hzn; exact Hn2|].
    unfold mbind, P_bind. rewrite Hn1, Hn1. reflexivity.
Qed.

End FormattingRuns.

Lemma formatting_runs_are_deterministic_witness :
  let alerts := {| nagios.AResult := successResult;
                   nagios.AData := [sampleAlert; sampleHostAlert] |} in
  exists out,
    runFormatAlerts runBracketState alerts processA = (Done out, processA) /\
    runFormatAlerts runBracketState alerts processB = (Done out, processB) /\
    (first ← runFormatAlerts runBracketState alerts;
     second ← runFormatAlerts runBracketState alerts;
     mret (first, second)) processA = (Done (out, out), processA).
Proof.
  cbv zeta.
  apply (formatting_runs_are_deterministic runBracketState bracketState
           (fun state p => eq_refl)
           {| nagios.AResult := successResult; nagios.AData := [sampleAlert; sampleHostAlert] |}
           {| nagios.NResult := successResult; nagios.NData := [sampleNotification] |}
           processA processB).
  intros sec. cbn [procLocal processA processB time.lookup time.UTC].
  rewrite Z.mul_0_r. reflexivity.
Defined.

(** A formatter that also printed the wall clock would tell the two
    sample processes apart. *)
Example clock_reading_formatter_differs :
  let stamped : P string :=
    now ← liftWorld Now; mret (strconv.FormatInt (time.Unix now)) in
  (stamped processA).1 <> (stamped processB).1.
Proof. cbv zeta. vm_compute. discriminate. Qed.
